(** * Bank statement analysis: normalization and aggregation engine

    A shallow embedding of the pandas code of
    [bank_analysis_phase2.py] ([BankDataAnalyzer]),
    [bank_analysis_improved.py] ([ImprovedBankAnalyzer], whose cleaning and
    aggregation methods are line-for-line the same computations) and
    [bank_analysis_extended.py] ([ExtendedBankAnalyzer]).

    Conventions of the embedding.
    - A [str] is a [string]: the bytes of its UTF-8 encoding.  Substring
      search on UTF-8 bytes coincides with substring search on code points.
      [str.strip] and the regular expression class [\d] are modelled on their
      ASCII members.
    - A float64 cell is an [fval]: a finite value, modelled by the rational
      it stands for, or one of the IEEE special values [+inf], [-inf], [NaN].
      The special values and the way arithmetic creates and propagates them
      are modelled as IEEE 754 has them; the rounding error of finite binary
      arithmetic and the sign of zero are not.
    - Library functions of pandas whose result depends on a grammar that is
      not part of this repository ([pd.to_numeric] and [pd.to_datetime] on
      one cell, the regular expression search of [str.contains] on one cell)
      are parameters of the sections that use them; an instance for plain
      decimals, ISO dates and literal keywords is given for evaluation. *)

From Stdlib Require Import List Bool Arith ZArith QArith Qround Lia Lqa.
From Stdlib Require Import Permutation Sorted.
From Stdlib Require Import Ascii String.
Import ListNotations.

Local Open Scope string_scope.
Local Open Scope list_scope.

(** ** Python [str] operations *)

Module Str.

(** [c.isspace()] for an ASCII character: TAB, LF, VT, FF, CR, FS, GS, RS,
    US and SPACE. *)
Definition is_space (c : ascii) : bool :=
  let n := nat_of_ascii c in
  (((9 <=? n) && (n <=? 13)) || ((28 <=? n) && (n <=? 32)))%nat.

(** [\d] on ASCII. *)
Definition is_digit (c : ascii) : bool :=
  let n := nat_of_ascii c in ((48 <=? n) && (n <=? 57))%nat.

Fixpoint lstrip (s : string) : string :=
  match s with
  | String c s' => if is_space c then lstrip s' else s
  | EmptyString => EmptyString
  end.

(** [rstrip] drops the longest whitespace suffix. *)
Fixpoint rstrip (s : string) : string :=
  match s with
  | EmptyString => EmptyString
  | String c s' =>
      match rstrip s' with
      | EmptyString => if is_space c then EmptyString else String c EmptyString
      | t => String c t
      end
  end.

(** [s.strip()] *)
Definition strip (s : string) : string := rstrip (lstrip s).

(** [s.replace(',', '')] *)
Fixpoint remove_commas (s : string) : string :=
  match s with
  | EmptyString => EmptyString
  | String c s' =>
      if Ascii.eqb c ","%char then remove_commas s'
      else String c (remove_commas s')
  end.

(** [sub in s] : the literal [sub] occurs in [s]. *)
Fixpoint contains (sub s : string) : bool :=
  prefix sub s ||
  match s with
  | EmptyString => false
  | String _ s' => contains sub s'
  end.

(** ASCII lower-casing, the case folding of [re.IGNORECASE] on ASCII. *)
Definition lower_char (c : ascii) : ascii :=
  let n := nat_of_ascii c in
  if ((65 <=? n) && (n <=? 90))%nat then ascii_of_nat (n + 32)%nat else c.

Fixpoint lower (s : string) : string :=
  match s with
  | EmptyString => EmptyString
  | String c s' => String (lower_char c) (lower s')
  end.

(** Literal, case-insensitive search. *)
Definition contains_nocase (sub s : string) : bool :=
  contains (lower sub) (lower s).

(** [all_space s]: every character of [s] is whitespace (the empty string
    included). *)
Fixpoint all_space (s : string) : bool :=
  match s with
  | EmptyString => true
  | String c s' => is_space c && all_space s'
  end.

Fixpoint has_comma (s : string) : bool :=
  match s with
  | EmptyString => false
  | String c s' => Ascii.eqb c ","%char || has_comma s'
  end.

End Str.

(** ** float64 cells *)

Inductive fval : Type :=
| Fin (q : Q)
| PInf
| NInf
| NaN.

Module F.

Definition zero : fval := Fin 0.

Definition isna (x : fval) : bool :=
  match x with NaN => true | _ => false end.

Definition isinf (x : fval) : bool :=
  match x with PInf | NInf => true | _ => false end.

(** [x > y]; false as soon as one side is NaN. *)
Definition gt (x y : fval) : bool :=
  match x, y with
  | NaN, _ | _, NaN => false
  | Fin a, Fin b => match (a ?= b)%Q with Gt => true | _ => false end
  | PInf, PInf => false
  | PInf, _ => true
  | _, PInf => false
  | NInf, _ => false
  | Fin _, NInf => true
  end.

Definition neg (x : fval) : fval :=
  match x with
  | Fin q => Fin (- q)
  | PInf => NInf
  | NInf => PInf
  | NaN => NaN
  end.

Definition add (x y : fval) : fval :=
  match x, y with
  | NaN, _ | _, NaN => NaN
  | Fin a, Fin b => Fin (a + b)
  | PInf, NInf | NInf, PInf => NaN
  | PInf, _ | _, PInf => PInf
  | NInf, _ | _, NInf => NInf
  end.

Definition sub (x y : fval) : fval := add x (neg y).

(** An infinity with the sign given by a comparison against zero; a zero
    sign gives NaN (0 * inf, 0 / 0). *)
Definition inf_of_sign (s : comparison) (flip : bool) : fval :=
  match s, flip with
  | Eq, _ => NaN
  | Gt, false | Lt, true => PInf
  | Gt, true | Lt, false => NInf
  end.

Definition mul (x y : fval) : fval :=
  match x, y with
  | NaN, _ | _, NaN => NaN
  | Fin a, Fin b => Fin (a * b)
  | Fin a, PInf | PInf, Fin a => inf_of_sign (a ?= 0)%Q false
  | Fin a, NInf | NInf, Fin a => inf_of_sign (a ?= 0)%Q true
  | PInf, PInf | NInf, NInf => PInf
  | PInf, NInf | NInf, PInf => NInf
  end.

(** Division.  A finite value divided by zero is an infinity of the sign
    of the numerator, 0 / 0 is NaN: no exception is raised by numpy. *)
Definition div (x y : fval) : fval :=
  match x, y with
  | NaN, _ | _, NaN => NaN
  | Fin a, Fin b =>
      match (b ?= 0)%Q with
      | Eq => inf_of_sign (a ?= 0)%Q false
      | _ => Fin (a / b)
      end
  | Fin _, (PInf | NInf) => Fin 0
  | PInf, Fin b => match (b ?= 0)%Q with Lt => NInf | _ => PInf end
  | NInf, Fin b => match (b ?= 0)%Q with Lt => PInf | _ => NInf end
  | (PInf | NInf), (PInf | NInf) => NaN
  end.

(** [np.rint]: round to the nearest integer, ties to even. *)
Definition rint (q : Q) : Z :=
  let f := Qfloor q in
  match (q - inject_Z f ?= 1 # 2)%Q with
  | Lt => f
  | Gt => (f + 1)%Z
  | Eq => if Z.even f then f else (f + 1)%Z
  end.

(** [np.round(q, d)] on a finite value: [rint(q * 10**d) / 10**d]. *)
Definition round_dec (d : nat) (q : Q) : Q :=
  let p := inject_Z (10 ^ Z.of_nat d) in
  Qred (inject_Z (rint (q * p)) / p).

(** [Series.round(d)] on one cell. *)
Definition round (d : nat) (x : fval) : fval :=
  match x with
  | Fin q => Fin (round_dec d q)
  | _ => x
  end.

(** [Series.fillna(v)] on one cell. *)
Definition fillna (v x : fval) : fval :=
  if isna x then v else x.

(** [Series.sum()], also the [sum] of a group: NaN cells are skipped and
    the empty sum is 0. *)
Definition sum (xs : list fval) : fval :=
  fold_left add (filter (fun x => negb (isna x)) xs) zero.

(** Equality of cells up to the representation of a rational. *)
Definition eqv (x y : fval) : Prop :=
  match x, y with
  | Fin a, Fin b => (a == b)%Q
  | PInf, PInf | NInf, NInf | NaN, NaN => True
  | _, _ => False
  end.

End F.

(** ** The raw table

    One [raw_row] per line of the exported statement, as [pd.read_csv]
    delivers it in object columns: a cell is a [str] or missing (NaN),
    here [None]. *)

Record raw_row : Type := mk_raw {
  r_date : option string;      (* 交易日期 *)
  r_income : option string;    (* 记账金额(收入) *)
  r_expense : option string;   (* 记账金额(支出) *)
  r_balance : option string;   (* 余额 *)
  r_summary : option string;   (* 摘要 *)
  r_detail : option string;    (* 交易详情 *)
  r_place : option string;     (* 交易场所 *)
  r_party : option string      (* 对方户名 *)
}.

(** ** RowFilter: the three filters of [clean_and_preprocess_data] *)

(** The alternatives of the pattern ['合计|总计|小计']. *)
Definition summary_markers : list string := ["合计"; "总计"; "小计"].

(** [Series.str.contains('合计|总计|小计', na=False)] on one cell. *)
Definition contains_marker (c : option string) : bool :=
  match c with
  | Some s => existsb (fun m => Str.contains m s) summary_markers
  | None => false
  end.

(** [re.match(r'^\d{4}-\d{2}-\d{2}', s)]: the pattern at the start of
    [s]; whatever follows is accepted. *)
Definition date_pattern (s : string) : bool :=
  match s with
  | String y1 (String y2 (String y3 (String y4 (String h1
      (String m1 (String m2 (String h2 (String d1 (String d2 _))))))))) =>
      Str.is_digit y1 && Str.is_digit y2 && Str.is_digit y3 && Str.is_digit y4
      && Ascii.eqb h1 "-"%char
      && Str.is_digit m1 && Str.is_digit m2
      && Ascii.eqb h2 "-"%char
      && Str.is_digit d1 && Str.is_digit d2
  | _ => false
  end.

(** [Series.str.match(r'^\d{4}-\d{2}-\d{2}', na=False)] on one cell. *)
Definition match_date (c : option string) : bool :=
  match c with
  | Some s => date_pattern s
  | None => false
  end.

(** [Series.notna()] on one cell. *)
Definition notna {A : Type} (c : option A) : bool :=
  match c with Some _ => true | None => false end.

(** The three successive boolean selections [df = df[...]]. *)
Definition row_filter (df : list raw_row) : list raw_row :=
  let df1 := filter (fun r => notna (r_date r)) df in
  let df2 := filter (fun r => negb (contains_marker (r_date r))) df1 in
  filter (fun r => match_date (r_date r)) df2.

(** ** Cleaned transactions *)

(** The values of the column 交易类型. *)
Definition type_income : string := "收入".
Definition type_expense : string := "支出".
Definition type_unknown : string := "未知".

(** The fill value of the column 交易类别. *)
Definition uncategorized : string := "未分类".

Record txn : Type := mk_txn {
  t_year : Z;                  (* 年份 *)
  t_month : Z;                 (* 月份 *)
  t_quarter : Z;               (* 季度 *)
  t_day : Z;                   (* day of 日期 *)
  t_income : fval;             (* 收入 *)
  t_expense : fval;            (* 支出 *)
  t_type : string;             (* 交易类型 *)
  t_net : fval;                (* 净金额 *)
  t_category : string;         (* 交易类别 *)
  t_balance : fval;            (* 账户余额 *)
  t_detail : option string;    (* 交易详情 *)
  t_place : option string;     (* 交易场所 *)
  t_party : option string      (* 对方户名 *)
}.

(** [row['收入'] > 0 ... else ... row['支出'] > 0 ... else ...], the lambda
    applied to every row. *)
Definition transaction_type (income expense : fval) : string :=
  if F.gt income F.zero then type_income
  else if F.gt expense F.zero then type_expense
  else type_unknown.

(** [Series.astype(str)] on one cell of an object column: a missing cell
    prints as ['nan']. *)
Definition astype_str (c : option string) : string :=
  match c with Some s => s | None => "nan" end.

(** [Series.replace(['', 'nan', 'NaN'], '0')] on one cell: whole-cell
    replacement. *)
Definition replace_blank (s : string) : string :=
  if (s =? "") || (s =? "nan") || (s =? "NaN") then "0" else s.

(** The text handed to the numeric parser for an amount cell. *)
Definition amount_text (c : option string) : string :=
  Str.remove_commas (replace_blank (Str.strip (astype_str c))).

(** The text handed to the numeric parser for a balance cell: no
    replacement of blanks here. *)
Definition balance_text (c : option string) : string :=
  Str.remove_commas (Str.strip (astype_str c)).

(** [df['摘要'].fillna('未分类').str.strip()] on one cell. *)
Definition trade_category (c : option string) : string :=
  Str.strip (match c with Some s => s | None => uncategorized end).

(** [dt.quarter] *)
Definition quarter_of (month : Z) : Z := ((month - 1) / 3 + 1)%Z.

(** What [clean_and_preprocess_data] prints about the run. *)
Record clean_report : Type := mk_report {
  original_count : nat;
  filtered_count : nat;
  removed_count : nat;
  date_range : option ((Z * Z * Z) * (Z * Z * Z));
  shape_rows : nat;
  income_records : nat;
  expense_records : nat;
  total_income_printed : fval;
  total_expense_printed : fval;
  net_printed : fval
}.

Definition date_leb (a b : Z * Z * Z) : bool :=
  let '(y1, m1, d1) := a in
  let '(y2, m2, d2) := b in
  ((y1 <? y2) || ((y1 =? y2) && ((m1 <? m2) || ((m1 =? m2) && (d1 <=? d2)))))%Z.

Definition txn_date (t : txn) : Z * Z * Z := (t_year t, t_month t, t_day t).

(** [(df['日期'].min(), df['日期'].max())]; nothing on an empty table. *)
Definition min_max_date (df : list txn) : option ((Z * Z * Z) * (Z * Z * Z)) :=
  match df with
  | [] => None
  | t :: ts =>
      Some (fold_left (fun '(lo, hi) u =>
                         let d := txn_date u in
                         (if date_leb lo d then lo else d,
                          if date_leb d hi then hi else d))
                      ts (txn_date t, txn_date t))
  end.

Section FieldNormalizer.

(** [pd.to_numeric(..., errors='coerce')] on one [str] cell: the number the
    text denotes, NaN when it denotes none. *)
Variable to_numeric : string -> fval.

(** [pd.to_datetime(..., format='%Y-%m-%d')] on one cell: year, month and
    day, or [None] when the call raises. *)
Variable to_datetime : string -> option (Z * Z * Z).

(** Lines 84-88 and 90-94: the cleaning of an amount cell. *)
Definition clean_amount (c : option string) : fval :=
  F.fillna F.zero (to_numeric (amount_text c)).

(** Lines 112-113: the cleaning of a balance cell. *)
Definition clean_balance (c : option string) : fval :=
  to_numeric (balance_text c).

(** One row of the cleaned table; [None] when the date does not parse, in
    which case the whole call raises. *)
Definition clean_row (r : raw_row) : option txn :=
  match r_date r with
  | None => None
  | Some s =>
      match to_datetime (Str.strip s) with
      | None => None
      | Some (y, m, d) =>
          let income := clean_amount (r_income r) in
          let expense := clean_amount (r_expense r) in
          Some {| t_year := y;
                  t_month := m;
                  t_quarter := quarter_of m;
                  t_day := d;
                  t_income := income;
                  t_expense := expense;
                  t_type := transaction_type income expense;
                  t_net := F.sub income expense;
                  t_category := trade_category (r_summary r);
                  t_balance := clean_balance (r_balance r);
                  t_detail := r_detail r;
                  t_place := r_place r;
                  t_party := r_party r |}
      end
  end.

Fixpoint clean_rows (df : list raw_row) : option (list txn) :=
  match df with
  | [] => Some []
  | r :: rest =>
      match clean_row r, clean_rows rest with
      | Some t, Some ts => Some (t :: ts)
      | _, _ => None
      end
  end.

Definition count_positive (col : txn -> fval) (df : list txn) : nat :=
  List.length (filter (fun t => F.gt (col t) F.zero) df).

(** [clean_and_preprocess_data]: the cleaned table stored in
    [self.clean_data] and what is printed; [None] when [to_datetime]
    raises. *)
Definition clean_and_preprocess_data (raw : list raw_row)
  : option (list txn * clean_report) :=
  let kept := row_filter raw in
  match clean_rows kept with
  | None => None
  | Some df =>
      Some (df,
            {| original_count := List.length raw;
               filtered_count := List.length kept;
               removed_count := List.length raw - List.length kept;
               date_range := min_max_date df;
               shape_rows := List.length df;
               income_records := count_positive t_income df;
               expense_records := count_positive t_expense df;
               total_income_printed := F.sum (map t_income df);
               total_expense_printed := F.sum (map t_expense df);
               net_printed := F.sum (map t_net df) |})
  end.

(** The number of amount cells of the kept rows whose text the parser
    rejects, that is, the number of coercions to zero. *)
Definition coerced_cells (raw : list raw_row) : nat :=
  let rejected c := F.isna (to_numeric (amount_text c)) in
  let kept := row_filter raw in
  List.length (filter (fun r => rejected (r_income r)) kept)
  + List.length (filter (fun r => rejected (r_expense r)) kept).

End FieldNormalizer.

(** ** AggregationEngine *)

(** [DataFrame.groupby(key)] with its default [sort=True]: one group per
    distinct key, the keys in ascending order, each group holding the rows
    of that key in table order. *)
Section GroupBy.

Context {K : Type}.
Variable cmp : K -> K -> comparison.

Definition key_eqb (a b : K) : bool :=
  match cmp a b with Eq => true | _ => false end.

(** The distinct keys, in order of first appearance. *)
Fixpoint dedup (l : list K) : list K :=
  match l with
  | [] => []
  | k :: r => k :: filter (fun x => negb (key_eqb k x)) (dedup r)
  end.

Fixpoint insert_key (k : K) (l : list K) : list K :=
  match l with
  | [] => [k]
  | h :: r =>
      match cmp k h with
      | Gt => h :: insert_key k r
      | _ => k :: l
      end
  end.

Definition sort_keys (l : list K) : list K := fold_right insert_key [] l.

Definition group_keys (l : list K) : list K := sort_keys (dedup l).

Definition groupby {R : Type} (key : R -> K) (df : list R) : list (K * list R) :=
  map (fun k => (k, filter (fun t => key_eqb (key t) k) df))
      (group_keys (map key df)).

End GroupBy.

(** The key of the column 年月, a monthly period. *)
Definition year_month (t : txn) : Z * Z := (t_year t, t_month t).

Definition period_compare (a b : Z * Z) : comparison :=
  match (fst a ?= fst b)%Z with
  | Eq => (snd a ?= snd b)%Z
  | c => c
  end.

(** One row of a monthly or yearly summary. *)
Record bucket (K : Type) : Type := mk_bucket {
  b_key : K;
  b_income : fval;        (* 收入 *)
  b_expense : fval;       (* 支出 *)
  b_net : fval;           (* 净金额 *)
  b_savings : fval        (* 储蓄率(%) *)
}.
Arguments mk_bucket {K}.
Arguments b_key {K}.
Arguments b_income {K}.
Arguments b_expense {K}.
Arguments b_net {K}.
Arguments b_savings {K}.

(** [(net / income * 100).round(1)] followed by [.fillna(0)]. *)
Definition savings_rate (net income : fval) : fval :=
  F.fillna F.zero (F.round 1 (F.mul (F.div net income) (Fin 100))).

(** [.agg({'收入': 'sum', '支出': 'sum', '净金额': 'sum'}).round(2)] and
    the savings-rate column, for one group. *)
Definition summarize {K : Type} (g : K * list txn) : bucket K :=
  let income := F.round 2 (F.sum (map t_income (snd g))) in
  let expense := F.round 2 (F.sum (map t_expense (snd g))) in
  let net := F.round 2 (F.sum (map t_net (snd g))) in
  {| b_key := fst g;
     b_income := income;
     b_expense := expense;
     b_net := net;
     b_savings := savings_rate net income |}.

(** The table [monthly_summary] returned by [analyze_monthly_trends]. *)
Definition analyze_monthly_trends (df : list txn) : list (bucket (Z * Z)) :=
  map summarize (groupby period_compare year_month df).

(** The table [yearly_summary] of [analyze_yearly_trends]. *)
Definition yearly_summary (df : list txn) : list (bucket Z) :=
  map summarize (groupby Z.compare t_year df).

(** [(curr - prev) / prev * 100], as lines 230 and 231 compute it. *)
Definition growth (curr prev : fval) : fval :=
  F.mul (F.div (F.sub curr prev) prev) (Fin 100).

(** One printed line of the growth analysis. *)
Record growth_line : Type := mk_growth {
  g_prev_year : Z;
  g_curr_year : Z;
  g_income_growth : fval;
  g_expense_growth : fval
}.

(** The loop [for i in range(1, len(yearly_summary))]. *)
Fixpoint growth_lines (summary : list (bucket Z)) : list growth_line :=
  match summary with
  | prev :: ((curr :: _) as rest) =>
      {| g_prev_year := b_key prev;
         g_curr_year := b_key curr;
         g_income_growth := growth (b_income curr) (b_income prev);
         g_expense_growth := growth (b_expense curr) (b_expense prev) |}
      :: growth_lines rest
  | _ => []
  end.

(** [analyze_yearly_trends]: the table it returns and the growth lines it
    prints. *)
Definition analyze_yearly_trends (df : list txn)
  : list (bucket Z) * list growth_line :=
  let summary := yearly_summary df in
  (summary, growth_lines summary).

(** The result of [analyze_overall_summary]. *)
Record overall : Type := mk_overall {
  total_income : fval;
  total_expense : fval;
  net_balance : fval;
  income_transactions : nat;
  expense_transactions : nat
}.

Definition analyze_overall_summary (df : list txn) : overall :=
  let ti := F.sum (map t_income df) in
  let te := F.sum (map t_expense df) in
  {| total_income := ti;
     total_expense := te;
     net_balance := F.sub ti te;
     income_transactions := count_positive t_income df;
     expense_transactions := count_positive t_expense df |}.

(** One row of a category table. *)
Record cat_bucket : Type := mk_cat {
  c_category : string;
  c_total : fval;         (* 总金额 *)
  c_count : nat;          (* 交易次数 *)
  c_mean : fval;          (* 平均金额 *)
  c_share : fval          (* 占比(%) *)
}.

(** [Series.mean()] of a group without NaN. *)
Definition mean (xs : list fval) : fval :=
  F.div (F.sum xs) (Fin (inject_Z (Z.of_nat (List.length xs)))).

(** [df[df[col] > 0].groupby('交易类别').agg({col: ['sum', 'count',
    'mean']}).round(2)]: total, count and mean per category. *)
Definition category_groups (col : txn -> fval) (df : list txn)
  : list (string * list txn) :=
  groupby String.compare t_category
          (filter (fun t => F.gt (col t) F.zero) df).

Definition category_totals (col : txn -> fval) (df : list txn) : list fval :=
  map (fun g => F.round 2 (F.sum (map col (snd g)))) (category_groups col df).

(** [table['总金额'].sum()], the denominator of the share column. *)
Definition categories_sum (col : txn -> fval) (df : list txn) : fval :=
  F.sum (category_totals col df).

(** A category table with its share column, in the key order of the
    groupby.  (The source finally reorders the rows with [sort_values]; the
    rows themselves are these.) *)
Definition category_table (col : txn -> fval) (df : list txn) : list cat_bucket :=
  let denom := categories_sum col df in
  map (fun g =>
         let total := F.round 2 (F.sum (map col (snd g))) in
         {| c_category := fst g;
            c_total := total;
            c_count := List.length (snd g);
            c_mean := F.round 2 (mean (map col (snd g)));
            c_share := F.round 1 (F.mul (F.div total denom) (Fin 100)) |})
      (category_groups col df).

(** [analyze_categories]: the income table and the expense table. *)
Definition analyze_categories (df : list txn) : list cat_bucket * list cat_bucket :=
  (category_table t_income df, category_table t_expense df).

(** ** Categorizer: [ExtendedBankAnalyzer.auto_categorize_transactions] *)

(** [self.category_rules]: a dict, iterated by [.items()] in insertion
    order. *)
Definition category_rules : list (string * list string) :=
  [ ("餐饮", ["美团"; "饿了么"; "肯德基"; "麦当劳"; "星巴克"; "瑞幸"; "餐厅"; "饭店"; "食堂"; "外卖"]);
    ("交通", ["滴滴"; "出租车"; "地铁"; "公交"; "高铁"; "火车"; "飞机"; "机票"; "加油"; "停车"; "打车"]);
    ("购物", ["淘宝"; "天猫"; "京东"; "拼多多"; "苏宁"; "当当"; "超市"; "商场"; "购物"]);
    ("医疗", ["医院"; "药店"; "诊所"; "体检"; "医疗"; "疫苗"; "挂号"]);
    ("娱乐", ["电影"; "游戏"; "娱乐"; "健身"; "运动"; "KTV"; "旅游"; "酒店"]);
    ("生活", ["水费"; "电费"; "燃气费"; "物业费"; "房租"; "话费"; "网费"; "快递"]);
    ("金融", ["理财"; "保险"; "基金"; "股票"; "投资"; "还款"; "贷款"]);
    ("教育", ["培训"; "学费"; "书费"; "教育"; "考试"]);
    ("家居", ["装修"; "家具"; "家电"; "日用品"]);
    ("服装", ["服装"; "鞋子"; "包包"; "化妆品"]) ].

(** The initial value of the column 自动分类. *)
Definition other : string := "其他".

Definition col_detail : string := "交易详情".
Definition col_place : string := "交易场所".
Definition col_party : string := "对方户名".

(** [text_columns] *)
Definition text_columns : list string := [col_detail; col_place; col_party].

(** The cleaned table as the categorizer sees it: its column index and its
    rows. *)
Record frame : Type := mk_frame {
  columns : list string;
  rows : list txn
}.

(** [col in df.columns] *)
Definition has_column (df : frame) (col : string) : bool :=
  existsb (String.eqb col) (columns df).

(** The cell of a row in one of the text columns. *)
Definition text_cell (col : string) (t : txn) : option string :=
  if col =? col_detail then t_detail t
  else if col =? col_place then t_place t
  else if col =? col_party then t_party t
  else None.

(** [df.loc[mask, '自动分类'] = category] *)
Definition loc_assign (mask : list bool) (category : string) (auto : list string)
  : list string :=
  map (fun '(m, a) => if m : bool then category else a) (combine mask auto).

Section Categorizer.

(** [re.search(keyword, text, re.IGNORECASE)] on one [str] cell, as
    [Series.str.contains(keyword, case=False)] evaluates it. *)
Variable search : string -> string -> bool.

(** [str.contains(keyword, case=False, na=False)] on one cell. *)
Definition cell_contains (keyword : string) (c : option string) : bool :=
  match c with
  | Some s => search keyword s
  | None => false
  end.

(** [mask = df[col].str.contains(keyword, case=False, na=False)] *)
Definition contains_mask (df : frame) (col keyword : string) : list bool :=
  map (fun t => cell_contains keyword (text_cell col t)) (rows df).

(** The innermost loop, over the keywords of one category. *)
Definition scan_keywords (df : frame) (category col : string)
    (keywords : list string) (auto : list string) : list string :=
  fold_left (fun a keyword => loc_assign (contains_mask df col keyword) category a)
            keywords auto.

(** The loop over the text columns, guarded by [if col in df.columns]. *)
Definition scan_columns (df : frame) (category : string)
    (keywords : list string) (auto : list string) : list string :=
  fold_left (fun a col =>
               if has_column df col then scan_keywords df category col keywords a
               else a)
            text_columns auto.

(** The outer loop over [category_rules.items()], started from the column
    filled with ['其他']. *)
Definition auto_categorize (rules : list (string * list string)) (df : frame)
  : list string :=
  fold_left (fun a rule => scan_columns df (fst rule) (snd rule) a)
            rules (map (fun _ => other) (rows df)).

(** *** The rule order, as the specification words it

    The rules in iteration order: every category in its defined order, then
    every text column that the table has, then every keyword. *)
Definition rule_order (rules : list (string * list string)) (df : frame)
  : list (string * string * string) :=
  flat_map (fun rule =>
    flat_map (fun col =>
      if has_column df col
      then map (fun keyword => (fst rule, col, keyword)) (snd rule)
      else [])
    text_columns)
  rules.

Definition rule_matches (t : txn) (r : string * string * string) : bool :=
  let '(_, col, keyword) := r in cell_contains keyword (text_cell col t).

(** Last rule wins: the category of the last rule, in iteration order, that
    matches the row; ['其他'] when none does. *)
Definition last_match (rules : list (string * list string)) (df : frame)
    (t : txn) : string :=
  match find (rule_matches t) (rev (rule_order rules df)) with
  | Some (category, _, _) => category
  | None => other
  end.

(** A category matches a row when one of its keywords is found in one of
    the text columns that the table has. *)
Definition category_matches (df : frame) (t : txn) (rule : string * list string)
  : bool :=
  existsb (fun col =>
             has_column df col
             && existsb (fun keyword => cell_contains keyword (text_cell col t))
                        (snd rule))
          text_columns.

(** What the three loops do to the cell of one row: every rule, in
    iteration order, overwrites the cell when it matches. *)
Definition row_scan (t : txn) (order : list (string * string * string))
    (a : string) : string :=
  fold_left (fun a r => if rule_matches t r then fst (fst r) else a)
            order a.

(** The rules of one category over the given columns, in iteration
    order. *)
Definition column_order (df : frame) (rule : string * list string)
    (cols : list string) : list (string * string * string) :=
  flat_map (fun col =>
              if has_column df col
              then map (fun keyword => (fst rule, col, keyword)) (snd rule)
              else [])
           cols.

End Categorizer.

(** ** Instances of the library functions, for evaluation *)

Module Instances.

(** The value of a run of ASCII digits, most significant first. *)
Fixpoint digits_value (s : string) (acc : Z) : option Z :=
  match s with
  | EmptyString => Some acc
  | String c s' =>
      if Str.is_digit c
      then digits_value s' (10 * acc + Z.of_nat (nat_of_ascii c) - 48)%Z
      else None
  end.

(** Splits at the first ['.']. *)
Fixpoint split_dot (s : string) : string * option string :=
  match s with
  | EmptyString => (EmptyString, None)
  | String c s' =>
      if Ascii.eqb c "."%char then (EmptyString, Some s')
      else let '(a, b) := split_dot s' in (String c a, b)
  end.

Definition unsigned_decimal (s : string) : option Q :=
  let '(a, b) := split_dot s in
  let frac := match b with Some f => f | None => EmptyString end in
  match (String.length a + String.length frac)%nat with
  | O => None
  | _ =>
      match digits_value a 0, digits_value frac 0 with
      | Some i, Some f =>
          let p := (10 ^ Z.of_nat (String.length frac))%Z in
          Some (Qred (inject_Z (i * p + f) / inject_Z p))
      | _, _ => None
      end
  end.

(** [pd.to_numeric] on plain decimal text: an optional sign, digits, an
    optional fraction.  Everything else is rejected. *)
Definition decimal_to_numeric (s : string) : fval :=
  match s with
  | String "-"%char s' =>
      match unsigned_decimal s' with
      | Some q => Fin (Qred (- q))
      | None => NaN
      end
  | String "+"%char s' =>
      match unsigned_decimal s' with Some q => Fin q | None => NaN end
  | _ => match unsigned_decimal s with Some q => Fin q | None => NaN end
  end.

Definition is_leap (y : Z) : bool :=
  ((y mod 4 =? 0) && (negb (y mod 100 =? 0) || (y mod 400 =? 0)))%Z.

Definition days_in_month (y m : Z) : Z :=
  (if m =? 2 then (if is_leap y then 29 else 28)
   else if (m =? 4) || (m =? 6) || (m =? 9) || (m =? 11) then 30
   else 31)%Z.

(** [pd.to_datetime(s, format='%Y-%m-%d')] on text of the exact shape
    [YYYY-MM-DD] that names a calendar day; anything else raises. *)
Definition iso_to_datetime (s : string) : option (Z * Z * Z) :=
  if date_pattern s && (String.length s =? 10)%nat then
    match digits_value (substring 0 4 s) 0,
          digits_value (substring 5 2 s) 0,
          digits_value (substring 8 2 s) 0 with
    | Some y, Some m, Some d =>
        if ((1 <=? m) && (m <=? 12) && (1 <=? d) && (d <=? days_in_month y m))%Z
        then Some (y, m, d) else None
    | _, _, _ => None
    end
  else None.

(** Literal case-insensitive search: what the regular expression search
    does for a keyword without metacharacters, such as every keyword of
    [category_rules]. *)
Definition literal_search (keyword text : string) : bool :=
  Str.contains_nocase keyword text.

End Instances.

(** ** Auxiliary predicates used in the statements *)

Fixpoint all_digits (s : string) : bool :=
  match s with
  | EmptyString => true
  | String c s' => Str.is_digit c && all_digits s'
  end.

(** A cell that is finite and not negative, or [+inf]. *)
Definition nonneg (x : fval) : bool :=
  match x with
  | Fin q => Qle_bool 0 q
  | PInf => true
  | _ => false
  end.

(** [q] is a whole number of hundredths. *)
Definition whole_cents (q : Q) : bool :=
  ((Qnum q * 100) mod Z.pos (Qden q) =? 0)%Z.

(** An amount of money as a statement prints it: finite, not negative, a
    whole number of cents. *)
Definition money (x : fval) : bool :=
  match x with
  | Fin q => Qle_bool 0 q && whole_cents q
  | _ => false
  end.

(** The rational a finite cell stands for. *)
Definition qv (x : fval) : Q :=
  match x with Fin q => q | _ => 0 end.

Definition Qsum (l : list Q) : Q := fold_right Qplus 0 l.

(** ** Sample statements *)

Module Examples.

Import Instances.

(** The cleaned table of a run with the instances above; [[]] when the run
    raises. *)
Definition cleaned (raw : list raw_row) : list txn :=
  match clean_and_preprocess_data decimal_to_numeric iso_to_datetime raw with
  | Some (df, _) => df
  | None => []
  end.

(** A month with one purchase of 50.00 and no income. *)
Definition purchase_row : raw_row :=
  mk_raw (Some "2024-03-05") None (Some "50.00") (Some "4,950.00")
         (Some "消费") (Some "美团外卖") (Some "地铁站便利店") None.

(** The salary row of the specification's scenario. *)
Definition salary_row : raw_row :=
  mk_raw (Some "2024-03-05") (Some "1,000.00") (Some "") (Some "5,000.00")
         (Some "Salary") None None None.

(** A footer row. *)
Definition footer_row : raw_row :=
  mk_raw (Some "合计") (Some "1,000.00") (Some "50.00") None None None None None.

(** A year without income followed by a year with income. *)
Definition expense_2023 : raw_row :=
  mk_raw (Some "2023-06-01") None (Some "50.00") None (Some "消费") None None None.

Definition income_2024 : raw_row :=
  mk_raw (Some "2024-06-01") (Some "100.00") None None (Some "工资") None None None.

(** An amount cell that is no number, and the same row with the cell 0. *)
Definition corrupt_row : raw_row :=
  mk_raw (Some "2024-03-05") (Some "abc") (Some "50.00") None (Some "消费") None None None.

Definition zero_row : raw_row :=
  mk_raw (Some "2024-03-05") (Some "0") (Some "50.00") None (Some "消费") None None None.

(** A refund booked as a negative income, and one booked as a negative
    expense. *)
Definition negative_income_row : raw_row :=
  mk_raw (Some "2024-03-05") (Some "-5.00") (Some "") None (Some "冲正") None None None.

Definition negative_expense_row : raw_row :=
  mk_raw (Some "2024-03-05") (Some "") (Some "-5.00") None (Some "退款") None None None.

(** A reversal: both amounts positive. *)
Definition reversal_row : raw_row :=
  mk_raw (Some "2024-03-05") (Some "100.00") (Some "100.00") None (Some "冲正") None None None.

(** A balance cell that is no number. *)
Definition no_balance_row : raw_row :=
  mk_raw (Some "2024-03-05") (Some "1.00") None (Some "--") (Some "消费") None None None.

(** Three purchases in two categories. *)
Definition shopping : list raw_row :=
  [ mk_raw (Some "2024-03-05") None (Some "12.50") None (Some "餐饮") None None None;
    mk_raw (Some "2024-03-06") None (Some "1,200.00") None (Some "房租") None None None;
    mk_raw (Some "2024-03-07") (Some "300.00") None None (Some "工资") None None None;
    mk_raw (Some "2024-04-01") None (Some "7.25") None (Some "餐饮") None None None ].

(** Two purchases of less than half a cent in two categories. *)
Definition sub_cent : list raw_row :=
  [ mk_raw (Some "2024-03-05") None (Some "0.004") None (Some "餐饮") None None None;
    mk_raw (Some "2024-03-06") None (Some "0.004") None (Some "房租") None None None ].

(** The table of [purchase_row] with its three text columns. *)
Definition purchase_frame : frame :=
  mk_frame [col_detail; col_place; col_party] (cleaned [purchase_row]).

End Examples.

(** ** The rest of the analyzers *)

(** *** [analyze_overall_summary]: what it prints besides the totals *)

(** The savings-rate line: [(net_balance / total_income) * 100] when
    [total_income > 0], the message that it cannot be computed ([None])
    otherwise. *)
Definition overall_savings_rate (o : overall) : option fval :=
  if F.gt (total_income o) F.zero
  then Some (F.mul (F.div (net_balance o) (total_income o)) (Fin 100))
  else None.

(** [Series.mean()]: NaN cells are skipped; the mean of nothing is NaN. *)
Definition nanmean (xs : list fval) : fval :=
  let ys := filter (fun x => negb (F.isna x)) xs in
  F.div (F.sum ys) (Fin (inject_Z (Z.of_nat (List.length ys)))).

(** [df[df[col] > 0][col].mean()], the average amount of lines 154-155. *)
Definition average_positive (col : txn -> fval) (df : list txn) : fval :=
  nanmean (map col (filter (fun t => F.gt (col t) F.zero) df)).

(** *** [analyze_top_transactions] *)

Section SelectN.

Context {R : Type}.
Variable col : R -> fval.

(** Insertion before the first row that is not strictly greater: rows of
    equal value keep their table order. *)
Fixpoint insert_desc (x : R) (l : list R) : list R :=
  match l with
  | [] => [x]
  | h :: r => if F.gt (col h) (col x) then h :: insert_desc x r else x :: l
  end.

Definition sort_desc (l : list R) : list R := fold_right insert_desc [] l.

(** [DataFrame.nlargest(n, col)] with its default [keep='first']: the rows
    without NaN in [col], largest first, ties in table order, cut after
    [n] rows; nothing when [n <= 0]. *)
Definition nlargest (n : Z) (l : list R) : list R :=
  firstn (Z.to_nat n)
         (sort_desc (filter (fun x => negb (F.isna (col x))) l)).

End SelectN.

(** One row of a top-N table: [[['日期', '交易类别', col, '对方户名']]],
    rounded to 2 decimals. *)
Record top_row : Type := mk_top {
  top_date : Z * Z * Z;
  top_category : string;
  top_amount : fval;
  top_party : option string
}.

(** The rows selected by [df[df[col] > 0].nlargest(n, col)]. *)
Definition top_rows (col : txn -> fval) (n : Z) (df : list txn) : list txn :=
  nlargest col n (filter (fun t => F.gt (col t) F.zero) df).

Definition top_table (col : txn -> fval) (n : Z) (df : list txn) : list top_row :=
  map (fun t => {| top_date := txn_date t;
                   top_category := t_category t;
                   top_amount := F.round 2 (col t);
                   top_party := t_party t |})
      (top_rows col n df).

(** [analyze_top_transactions(n)]: the top incomes and the top expenses. *)
Definition analyze_top_transactions (n : Z) (df : list txn)
  : list top_row * list top_row :=
  (top_table t_income n df, top_table t_expense n df).

(** *** [create_visualizations]: the data of the expense pie *)

(** Lines 335-340, applied to the series [expense_by_category] once it is
    sorted: more than 8 categories are cut to the first 7 and one slice
    ['其他'] that sums the others. *)
Definition pie_data (s : list (string * fval)) : list (string * fval) :=
  if (8 <? List.length s)%nat
  then firstn 7 s ++ [(other, F.sum (map snd (skipn 7 s)))]
  else s.

(** *** [ExtendedBankAnalyzer.analyze_seasonal_patterns] *)

(** [df.groupby('月份').agg({... 'mean'}).round(2)] *)
Definition monthly_pattern (df : list txn) : list (Z * (fval * fval * fval)) :=
  map (fun g => (fst g,
                 (F.round 2 (nanmean (map t_income (snd g))),
                  F.round 2 (nanmean (map t_expense (snd g))),
                  F.round 2 (nanmean (map t_net (snd g))))))
      (groupby Z.compare t_month df).

Definition month_names : list string :=
  ["1月"; "2月"; "3月"; "4月"; "5月"; "6月";
   "7月"; "8月"; "9月"; "10月"; "11月"; "12月"].

(** The name of a calendar month. *)
Definition month_name (m : Z) : option string :=
  if (1 <=? m)%Z then nth_error month_names (Z.to_nat (m - 1)) else None.

Fixpoint enumerate_from {A : Type} (i : nat) (l : list A) : list (nat * A) :=
  match l with
  | [] => []
  | x :: r => (i, x) :: enumerate_from (S i) r
  end.

(** The loop [for i, (month, row) in enumerate(monthly_pattern.iterrows())]:
    for every row the label [month_names[i]] it is printed under ([None]
    when the index is out of range and the loop raises) and the month the
    row belongs to. *)
Definition month_lines (df : list txn) : list (option string * Z) :=
  map (fun ir => (nth_error month_names (fst ir), fst (snd ir)))
      (enumerate_from 0 (monthly_pattern df)).

(** *** [ExtendedBankAnalyzer.analyze_counterparty_patterns] *)

(** The key of a row in [groupby('对方户名')]. *)
Definition party_key (t : txn) : string :=
  match t_party t with Some s => s | None => EmptyString end.

(** [df[df[col] > 0].groupby('对方户名').agg({col: ['sum', 'count']})
    .round(2)]: rows without a counterparty are dropped by the groupby
    (its default [dropna=True]). The source then keeps the 10 largest
    totals of this table. *)
Definition counterparty_table (col : txn -> fval) (df : list txn)
  : list (string * fval * nat) :=
  map (fun g => (fst g, F.round 2 (F.sum (map col (snd g))), List.length (snd g)))
      (groupby String.compare party_key
               (filter (fun t => notna (t_party t))
                       (filter (fun t => F.gt (col t) F.zero) df))).

(** *** [ExtendedBankAnalyzer.analyze_spending_frequency] *)

(** The order of calendar days. *)
Definition date_compare (a b : Z * Z * Z) : comparison :=
  match period_compare (fst a) (fst b) with
  | Eq => (snd a ?= snd b)%Z
  | c => c
  end.

(** [df.groupby(df['日期'].dt.date).size()]: the number of transactions of
    every day that has one. *)
Definition daily_transactions (df : list txn) : list ((Z * Z * Z) * nat) :=
  map (fun g => (fst g, List.length (snd g))) (groupby date_compare txn_date df).

(** The count of a day as a cell of the series. *)
Definition day_count (x : (Z * Z * Z) * nat) : fval :=
  Fin (inject_Z (Z.of_nat (snd x))).

(** [daily_transactions.nlargest(5)] *)
Definition busiest_days (df : list txn) : list ((Z * Z * Z) * nat) :=
  nlargest day_count 5 (daily_transactions df).

(** *** The choice of the statement file *)

(** One entry of [find_csv_files]. *)
Record csv_file : Type := mk_csv {
  file_path : string;
  file_name : string
}.

(** What [input()] delivers: a line, or Ctrl-C. *)
Inductive console_event : Type :=
| Typed (line : string)
| Interrupt.

(** How [select_csv_file] ends: with a path, with [None], with the
    [EOFError] of an exhausted input, which it does not catch, or with an
    [IndexError]. *)
Inductive selection : Type :=
| Selected (path : string)
| Cancelled
| EndOfInput
| IndexError.

Section FileChoice.

(** [int(text)]: the integer, or [None] for [ValueError]. *)
Variable py_int : string -> option Z.

(** The loop [while True] of [select_csv_file] over what the user types. *)
Fixpoint select_loop (files : list csv_file) (inputs : list console_event)
  : selection :=
  match inputs with
  | [] => EndOfInput
  | Interrupt :: _ => Cancelled
  | Typed line :: rest =>
      let choice := Str.strip line in
      if Str.lower choice =? "q" then Cancelled
      else
        match py_int choice with
        | None => select_loop files rest
        | Some n =>
            if ((1 <=? n) && (n <=? Z.of_nat (List.length files)))%Z
            then match nth_error files (Z.to_nat (n - 1)) with
                 | Some f => Selected (file_path f)
                 | None => IndexError
                 end
            else select_loop files rest
        end
  end.

(** An entry after which the loop asks again: a line that is not [q], and
    is no integer or an integer outside [1 .. len(csv_files)]. *)
Definition asks_again (files : list csv_file) (e : console_event) : bool :=
  match e with
  | Interrupt => false
  | Typed line =>
      let choice := Str.strip line in
      negb (Str.lower choice =? "q")
      && match py_int choice with
         | None => true
         | Some n => negb ((1 <=? n) && (n <=? Z.of_nat (List.length files)))%Z
         end
  end.

(** [ImprovedBankAnalyzer.select_csv_file] on the list that
    [find_csv_files] returned. *)
Definition select_csv_file (files : list csv_file) (inputs : list console_event)
  : selection :=
  match files with
  | [] => Cancelled
  | _ => select_loop files inputs
  end.


End FileChoice.

(** [int] on an optional sign and ASCII digits. *)
Definition decimal_int (s : string) : option Z :=
  match s with
  | EmptyString => None
  | String "-"%char (String c r) =>
      option_map Z.opp (Instances.digits_value (String c r) 0)
  | String "+"%char (String c r) => Instances.digits_value (String c r) 0
  | String "-"%char EmptyString | String "+"%char EmptyString => None
  | _ => Instances.digits_value s 0
  end.

(** ** More predicates used in the statements *)

(** A cell that is neither NaN nor an infinity. *)
Definition finite (x : fval) : bool :=
  match x with Fin _ => true | _ => false end.

(** A finite cell that is a whole number of cents, of either sign. *)
Definition cents (x : fval) : bool :=
  match x with Fin q => whole_cents q | _ => false end.

(** Row [a] may come before row [b] in a table sorted by decreasing
    [col]: [b] is not strictly greater. *)
Definition not_less {R : Type} (col : R -> fval) (a b : R) : Prop :=
  F.gt (col b) (col a) = false.

(** The rows that [row_filter] keeps, as one test. *)
Definition keeps (r : raw_row) : bool :=
  notna (r_date r) && negb (contains_marker (r_date r)) && match_date (r_date r).

(** ** More sample statements *)

Module Samples.

Import Instances.

(** Incomes of 300, 1200 and 300 and one purchase. *)
Definition incomes : list raw_row :=
  [ mk_raw (Some "2024-03-05") (Some "300.00") None None (Some "工资") None None (Some "甲公司");
    mk_raw (Some "2024-03-06") (Some "1,200.00") None None (Some "奖金") None None None;
    mk_raw (Some "2024-05-07") (Some "300.00") None None (Some "工资") None None (Some "甲公司");
    mk_raw (Some "2024-05-08") None (Some "7.25") None (Some "餐饮") None None (Some "乙饭店") ].


(** A sorted series of nine categories. *)
Definition nine_slices : list (string * fval) :=
  [ ("房租", Fin 1200); ("餐饮", Fin 800); ("交通", Fin 300); ("购物", Fin 250);
    ("医疗", Fin 120); ("娱乐", Fin 90); ("教育", Fin 60); ("话费", Fin 30);
    ("快递", Fin (25 # 2)) ].

Definition two_files : list csv_file :=
  [ mk_csv "./a.csv" "a.csv"; mk_csv "./b.csv" "b.csv" ].

End Samples.

(** * Properties *)

(** ** RowFilter *)

Lemma row_filter_In (df : list raw_row) (r : raw_row) :
  In r (row_filter df) <->
  In r df /\ notna (r_date r) = true
  /\ contains_marker (r_date r) = false
  /\ match_date (r_date r) = true.
Proof.
  unfold row_filter. rewrite !filter_In, negb_true_iff. tauto.
Qed.

Lemma date_pattern_shape (s : string) :
  date_pattern s = true ->
  exists y m d rest,
    s = (y ++ "-" ++ m ++ "-" ++ d ++ rest)%string
    /\ String.length y = 4%nat /\ String.length m = 2%nat
    /\ String.length d = 2%nat
    /\ all_digits y = true /\ all_digits m = true /\ all_digits d = true.
Proof.
  destruct s as [|y1 [|y2 [|y3 [|y4 [|h1 [|m1 [|m2 [|h2 [|d1 [|d2 rest]]]]]]]]]];
    simpl; try discriminate.
  intros H. do 9 (apply andb_prop in H; destruct H as [H ?]).
  exists (String y1 (String y2 (String y3 (String y4 EmptyString)))),
         (String m1 (String m2 EmptyString)),
         (String d1 (String d2 EmptyString)), rest.
  repeat match goal with
         | E : Ascii.eqb _ _ = true |- _ => apply Ascii.eqb_eq in E; subst
         end.
  repeat split; simpl;
    repeat match goal with
           | E : Str.is_digit _ = true |- _ => try rewrite E; clear E
           end; reflexivity.
Qed.

(** C5. Every row that survives the row filter is a row of the input whose
    date cell is present and starts with four digits, a hyphen, two digits,
    a hyphen and two digits, and whose date cell contains none of the
    footer markers; and a row whose date cell contains a footer marker does
    not survive. *)
Theorem row_filter_keeps_dated_rows (df : list raw_row) :
  (forall r, In r (row_filter df) ->
     In r df
     /\ (exists y m d rest,
           r_date r = Some (y ++ "-" ++ m ++ "-" ++ d ++ rest)%string
           /\ String.length y = 4%nat /\ String.length m = 2%nat
           /\ String.length d = 2%nat
           /\ all_digits y = true /\ all_digits m = true /\ all_digits d = true)
     /\ (forall s marker, r_date r = Some s -> In marker summary_markers ->
           Str.contains marker s = false))
  /\ (forall r, contains_marker (r_date r) = true -> ~ In r (row_filter df)).
Proof.
  split.
  - intros r H. apply row_filter_In in H.
    destruct H as (Hin & Hna & Hmark & Hdate).
    split; [exact Hin|]. split.
    + destruct (r_date r) as [s|]; [|discriminate].
      simpl in Hdate.
      destruct (date_pattern_shape s Hdate) as (y & m & d & rest & E & P).
      exists y, m, d, rest. rewrite E. split; [reflexivity | exact P].
    + intros s marker E Hm. rewrite E in Hmark. unfold contains_marker in Hmark.
      destruct (Str.contains marker s) eqn:C; [|reflexivity].
      assert (X : existsb (fun m => Str.contains m s) summary_markers = true)
        by (apply existsb_exists; exists marker; auto).
      congruence.
  - intros r Hc Hr. apply row_filter_In in Hr.
    destruct Hr as (_ & _ & Hm & _). congruence.
Qed.

Lemma row_filter_keeps_dated_rows_witness :
  In Examples.salary_row (row_filter [Examples.footer_row; Examples.salary_row])
  /\ In Examples.salary_row [Examples.footer_row; Examples.salary_row]
  /\ contains_marker (r_date Examples.footer_row) = true
  /\ ~ In Examples.footer_row (row_filter [Examples.footer_row; Examples.salary_row]).
Proof.
  assert (H : In Examples.salary_row
                 (row_filter [Examples.footer_row; Examples.salary_row]))
    by (vm_compute; left; reflexivity).
  destruct (row_filter_keeps_dated_rows [Examples.footer_row; Examples.salary_row])
    as [Hkept Hdropped].
  split; [exact H|]. split; [exact (proj1 (Hkept _ H))|].
  split; [reflexivity|]. apply Hdropped. reflexivity.
Defined.

(** ** DimensionDeriver: the transaction type *)

Lemma type_names_distinct :
  type_income <> type_expense /\ type_income <> type_unknown
  /\ type_expense <> type_unknown.
Proof. repeat split; discriminate. Qed.

Lemma transaction_type_unknown_iff (income expense : fval) :
  transaction_type income expense = type_unknown <->
  F.gt income F.zero = false /\ F.gt expense F.zero = false.
Proof.
  unfold transaction_type.
  destruct (F.gt income F.zero), (F.gt expense F.zero); split;
    try (intros [? ?]); try discriminate; auto.
Qed.

Lemma nonneg_not_positive_is_zero (x : fval) :
  nonneg x = true -> F.gt x F.zero = false -> F.eqv x F.zero.
Proof.
  destruct x as [q| | |]; simpl; try discriminate.
  intros Hq Hgt. apply Qle_bool_iff in Hq.
  destruct (Qcompare_spec q 0) as [E|L|G]; try discriminate.
  - exact E.
  - exfalso. apply (Qlt_not_le _ _ L). exact Hq.
Qed.

Lemma clean_row_type (to_numeric : string -> fval)
    (to_datetime : string -> option (Z * Z * Z)) (r : raw_row) (t : txn) :
  clean_row to_numeric to_datetime r = Some t ->
  t_income t = clean_amount to_numeric (r_income r)
  /\ t_expense t = clean_amount to_numeric (r_expense r)
  /\ t_type t = transaction_type (t_income t) (t_expense t)
  /\ t_net t = F.sub (t_income t) (t_expense t)
  /\ t_balance t = clean_balance to_numeric (r_balance r).
Proof.
  unfold clean_row. destruct (r_date r) as [s|]; [|discriminate].
  destruct (to_datetime (Str.strip s)) as [[[y m] d]|]; [|discriminate].
  intros E. injection E as <-. simpl. repeat split; reflexivity.
Qed.

(** C6, as the code has it. The transaction type of every cleaned row is
    one of the three names, it is the value of [transaction_type] on the
    row's income and expense and so depends on nothing else, and it is the
    unknown type exactly when neither amount is strictly positive; when
    both amounts are non-negative that means both are zero. *)
Theorem transaction_type_by_amounts (to_numeric : string -> fval)
    (to_datetime : string -> option (Z * Z * Z)) (r : raw_row) (t : txn) :
  clean_row to_numeric to_datetime r = Some t ->
  (t_type t = type_income \/ t_type t = type_expense \/ t_type t = type_unknown)
  /\ t_type t = transaction_type (t_income t) (t_expense t)
  /\ (t_type t = type_unknown <->
      F.gt (t_income t) F.zero = false /\ F.gt (t_expense t) F.zero = false)
  /\ (nonneg (t_income t) = true -> nonneg (t_expense t) = true ->
      t_type t = type_unknown ->
      F.eqv (t_income t) F.zero /\ F.eqv (t_expense t) F.zero).
Proof.
  intros H. destruct (clean_row_type _ _ _ _ H) as (_ & _ & Ht & _).
  split; [|split; [exact Ht|split]].
  - rewrite Ht. unfold transaction_type.
    destruct (F.gt (t_income t) F.zero); [now left|].
    destruct (F.gt (t_expense t) F.zero); [now right; left | now right; right].
  - rewrite Ht. apply transaction_type_unknown_iff.
  - intros Hi He Hu. rewrite Ht in Hu.
    apply transaction_type_unknown_iff in Hu. destruct Hu as [Gi Ge].
    split; apply nonneg_not_positive_is_zero; assumption.
Qed.

Lemma transaction_type_by_amounts_witness :
  exists t,
    clean_row Instances.decimal_to_numeric Instances.iso_to_datetime
              Examples.purchase_row = Some t
    /\ t_type t = type_expense.
Proof.
  eexists. split; [vm_compute; reflexivity|].
  match goal with
  | |- t_type ?t = _ =>
      destruct (transaction_type_by_amounts Instances.decimal_to_numeric
                  Instances.iso_to_datetime Examples.purchase_row t
                  ltac:(vm_compute; reflexivity)) as (_ & E & _)
  end.
  rewrite E. vm_compute. reflexivity.
Defined.

(** C6, as the specification words it, fails: a cleaned row with a negative income
    and no expense has the unknown type although its income is not zero. *)
Lemma unknown_type_with_nonzero_income :
  exists t,
    clean_row Instances.decimal_to_numeric Instances.iso_to_datetime
              Examples.negative_income_row = Some t
    /\ t_type t = type_unknown
    /\ t_income t = Fin (-5)
    /\ ~ F.eqv (t_income t) F.zero.
Proof.
  eexists. split; [vm_compute; reflexivity|].
  simpl. split; [reflexivity|]. split; [reflexivity|].
  unfold F.eqv, F.zero. intros H. discriminate H.
Qed.

(** The type does not follow the sign of the net amount: a row with income
    5 and expense 10 has a negative net amount and the income type. *)
Lemma income_type_with_negative_net :
  transaction_type (Fin 5) (Fin 10) = type_income
  /\ F.sub (Fin 5) (Fin 10) = Fin (5 + - 10)
  /\ F.gt F.zero (F.sub (Fin 5) (Fin 10)) = true.
Proof. repeat split. Qed.

(** C10. A cleaned row whose income and expense are both strictly positive
    has the income type: the income test comes first. *)
Theorem income_takes_precedence (to_numeric : string -> fval)
    (to_datetime : string -> option (Z * Z * Z)) (r : raw_row) (t : txn) :
  clean_row to_numeric to_datetime r = Some t ->
  F.gt (t_income t) F.zero = true ->
  F.gt (t_expense t) F.zero = true ->
  t_type t = type_income.
Proof.
  intros H Gi _. destruct (clean_row_type _ _ _ _ H) as (_ & _ & Ht & _).
  rewrite Ht. unfold transaction_type. rewrite Gi. reflexivity.
Qed.

Lemma income_takes_precedence_witness :
  exists t,
    clean_row Instances.decimal_to_numeric Instances.iso_to_datetime
              Examples.reversal_row = Some t
    /\ t_income t = Fin 100 /\ t_expense t = Fin 100
    /\ t_type t = type_income.
Proof.
  eexists. split; [vm_compute; reflexivity|].
  split; [reflexivity|]. split; [reflexivity|].
  apply (income_takes_precedence Instances.decimal_to_numeric
           Instances.iso_to_datetime Examples.reversal_row);
    vm_compute; reflexivity.
Defined.

(** ** FieldNormalizer: amount and balance cells *)

Lemma lstrip_all_space (s : string) :
  Str.all_space s = true -> Str.lstrip s = EmptyString.
Proof.
  induction s as [|c s IH]; simpl; [reflexivity|].
  intros H. apply andb_prop in H. destruct H as [Hc Hs].
  rewrite Hc. apply IH, Hs.
Qed.

Lemma strip_all_space (s : string) :
  Str.all_space s = true -> Str.strip s = EmptyString.
Proof.
  intros H. unfold Str.strip. rewrite (lstrip_all_space s H). reflexivity.
Qed.

Lemma remove_commas_no_comma (s : string) :
  Str.has_comma (Str.remove_commas s) = false.
Proof.
  induction s as [|c s IH]; simpl; [reflexivity|].
  destruct (Ascii.eqb c ","%char) eqn:E; [exact IH|].
  simpl. rewrite E. exact IH.
Qed.

Lemma amount_text_blank (c : option string) :
  c = None
  \/ (exists s, c = Some s
        /\ (Str.all_space s = true \/ Str.strip s = "nan" \/ Str.strip s = "NaN")) ->
  amount_text c = "0".
Proof.
  unfold amount_text.
  intros [-> | (s & -> & [H | [H | H]])]; simpl.
  - reflexivity.
  - rewrite (strip_all_space s H). reflexivity.
  - rewrite H. reflexivity.
  - rewrite H. reflexivity.
Qed.

Lemma fillna_not_nan (v x : fval) : v <> NaN -> F.fillna v x <> NaN.
Proof. destruct x; simpl; auto; discriminate. Qed.

(** C7, as the code has it. With a parser that reads ["0"] as zero: a
    missing, blank, whitespace-only or literal nan amount cell is cleaned
    to zero; the text handed to the parser is the stripped cell with every
    comma removed; text that the parser rejects is cleaned to zero, the
    cleaned amount is never NaN and is the parsed value otherwise; and a
    rejected cell is cleaned to exactly what a cell holding 0 is cleaned
    to, nothing else being recorded. *)
Theorem clean_amount_lenient (to_numeric : string -> fval) (c : option string) :
  to_numeric "0" = Fin 0 ->
  (c = None
   \/ (exists s, c = Some s
         /\ (Str.all_space s = true \/ Str.strip s = "nan" \/ Str.strip s = "NaN")) ->
   clean_amount to_numeric c = F.zero)
  /\ amount_text c = Str.remove_commas (replace_blank (Str.strip (astype_str c)))
  /\ Str.has_comma (amount_text c) = false
  /\ (to_numeric (amount_text c) = NaN -> clean_amount to_numeric c = F.zero)
  /\ clean_amount to_numeric c <> NaN
  /\ (to_numeric (amount_text c) <> NaN ->
      clean_amount to_numeric c = to_numeric (amount_text c))
  /\ (to_numeric (amount_text c) = NaN ->
      clean_amount to_numeric c = clean_amount to_numeric (Some "0")).
Proof.
  intros Hzero. unfold clean_amount.
  split; [|split; [|split; [|split; [|split; [|split]]]]].
  - intros Hb. rewrite (amount_text_blank c Hb), Hzero. reflexivity.
  - reflexivity.
  - apply remove_commas_no_comma.
  - intros E. rewrite E. reflexivity.
  - apply fillna_not_nan. discriminate.
  - intros E. destruct (to_numeric (amount_text c)); try reflexivity.
    now elim E.
  - intros E. rewrite E. change (amount_text (Some "0")) with "0".
    rewrite Hzero. reflexivity.
Qed.

Lemma clean_amount_lenient_witness :
  Instances.decimal_to_numeric "0" = Fin 0
  /\ clean_amount Instances.decimal_to_numeric (Some "   ") = F.zero
  /\ clean_amount Instances.decimal_to_numeric (Some "abc") = F.zero
  /\ clean_amount Instances.decimal_to_numeric (Some "1,000.00") = Fin 1000.
Proof.
  split; [reflexivity|].
  destruct (clean_amount_lenient Instances.decimal_to_numeric (Some "   ")
              ltac:(reflexivity)) as (Hblank & _).
  destruct (clean_amount_lenient Instances.decimal_to_numeric (Some "abc")
              ltac:(reflexivity)) as (_ & _ & _ & Hbad & _).
  destruct (clean_amount_lenient Instances.decimal_to_numeric (Some "1,000.00")
              ltac:(reflexivity)) as (_ & _ & _ & _ & _ & Hgood & _).
  split; [|split].
  - apply Hblank. right. exists "   ". split; [reflexivity|]. left. reflexivity.
  - apply Hbad. reflexivity.
  - rewrite Hgood; [reflexivity|]. vm_compute. discriminate.
Defined.

(** C7, as the specification words it, fails on its last part: a run over a row
    with a corrupt amount cell completes, and its cleaned table and
    everything it reports are those of the run over the same row with the
    cell 0, although the first run coerced one cell and the second none. No
    counter of coercions is kept. *)
Lemma coercion_not_counted :
  clean_and_preprocess_data Instances.decimal_to_numeric Instances.iso_to_datetime
    [Examples.corrupt_row]
  = clean_and_preprocess_data Instances.decimal_to_numeric Instances.iso_to_datetime
      [Examples.zero_row]
  /\ clean_and_preprocess_data Instances.decimal_to_numeric
       Instances.iso_to_datetime [Examples.corrupt_row] <> None
  /\ coerced_cells Instances.decimal_to_numeric [Examples.corrupt_row] = 1%nat
  /\ coerced_cells Instances.decimal_to_numeric [Examples.zero_row] = 0%nat.
Proof.
  split; [vm_compute; reflexivity|].
  split; [vm_compute; discriminate|].
  split; vm_compute; reflexivity.
Qed.

(** C8. The balance of a cleaned row is the parser's value of the stripped,
    comma-free text of the cell: NaN, which is not zero, when the parser
    rejects the text, and the parsed value itself otherwise. *)
Theorem clean_balance_null_or_exact (to_numeric : string -> fval)
    (to_datetime : string -> option (Z * Z * Z)) (r : raw_row) (t : txn) :
  clean_row to_numeric to_datetime r = Some t ->
  balance_text (r_balance r)
    = Str.remove_commas (Str.strip (astype_str (r_balance r)))
  /\ Str.has_comma (balance_text (r_balance r)) = false
  /\ (to_numeric (balance_text (r_balance r)) = NaN ->
      t_balance t = NaN /\ ~ F.eqv (t_balance t) F.zero)
  /\ (forall v, to_numeric (balance_text (r_balance r)) = v -> t_balance t = v).
Proof.
  intros H. destruct (clean_row_type _ _ _ _ H) as (_ & _ & _ & _ & Hb).
  unfold clean_balance in Hb.
  split; [reflexivity|]. split; [apply remove_commas_no_comma|]. split.
  - intros E. rewrite Hb, E. split; [reflexivity|]. simpl. tauto.
  - intros v E. rewrite Hb. exact E.
Qed.

Lemma clean_balance_null_or_exact_witness :
  exists t u,
    clean_row Instances.decimal_to_numeric Instances.iso_to_datetime
              Examples.no_balance_row = Some t
    /\ t_balance t = NaN
    /\ clean_row Instances.decimal_to_numeric Instances.iso_to_datetime
                 Examples.salary_row = Some u
    /\ t_balance u = Fin 5000.
Proof.
  eexists. eexists.
  split; [vm_compute; reflexivity|].
  split.
  - match goal with
    | |- t_balance ?t = _ =>
        apply (clean_balance_null_or_exact Instances.decimal_to_numeric
                 Instances.iso_to_datetime Examples.no_balance_row t
                 ltac:(vm_compute; reflexivity))
    end.
    vm_compute. reflexivity.
  - split; [vm_compute; reflexivity|].
    match goal with
    | |- t_balance ?t = _ =>
        apply (clean_balance_null_or_exact Instances.decimal_to_numeric
                 Instances.iso_to_datetime Examples.salary_row t
                 ltac:(vm_compute; reflexivity))
    end.
    vm_compute. reflexivity.
Defined.

(** ** AggregationEngine: rates with a zero denominator *)

Lemma div_by_zero (n : Q) :
  F.div (Fin n) F.zero
  = match (n ?= 0)%Q with Lt => NInf | Eq => NaN | Gt => PInf end.
Proof.
  unfold F.div, F.zero. change (0 ?= 0)%Q with Eq. simpl.
  destruct (n ?= 0)%Q; reflexivity.
Qed.

Lemma inf_times_hundred (x : fval) :
  F.isinf x = true -> F.mul x (Fin 100) = x.
Proof. destruct x; simpl; try discriminate; reflexivity. Qed.

Lemma savings_rate_zero_income (net : Q) :
  savings_rate (Fin net) F.zero
  = match (net ?= 0)%Q with Lt => NInf | Eq => F.zero | Gt => PInf end.
Proof.
  unfold savings_rate. rewrite div_by_zero.
  destruct (net ?= 0)%Q; reflexivity.
Qed.

(** C1 on the code. With an income of exactly 0 the savings rate of a
    bucket is 0 only when the net amount is 0 as well; a negative net
    amount gives [-inf] and a positive one [+inf]. The month and the year
    of a single purchase of 50.00 without income are reported with the
    savings rate [-inf]. *)
Theorem savings_rate_of_zero_income_bucket :
  (forall net : Q,
     savings_rate (Fin net) F.zero
     = match (net ?= 0)%Q with Lt => NInf | Eq => F.zero | Gt => PInf end)
  /\ savings_rate (Fin (-50)) (Fin 0) = NInf
  /\ analyze_monthly_trends (Examples.cleaned [Examples.purchase_row])
     = [ {| b_key := (2024, 3)%Z; b_income := Fin 0; b_expense := Fin 50;
            b_net := Fin (-50); b_savings := NInf |} ]
  /\ yearly_summary (Examples.cleaned [Examples.purchase_row])
     = [ {| b_key := 2024%Z; b_income := Fin 0; b_expense := Fin 50;
            b_net := Fin (-50); b_savings := NInf |} ].
Proof.
  split; [exact savings_rate_zero_income|].
  split; [reflexivity|].
  split; vm_compute; reflexivity.
Qed.

Lemma growth_from_zero (curr : Q) :
  growth (Fin curr) F.zero
  = match (curr ?= 0)%Q with Lt => NInf | Eq => NaN | Gt => PInf end.
Proof.
  unfold growth, F.sub, F.zero. simpl F.neg. simpl F.add.
  assert (E : (curr + - 0 ?= 0)%Q = (curr ?= 0)%Q).
  { apply Qcompare_comp; [ring | reflexivity]. }
  unfold F.div. change (0 ?= 0)%Q with Eq. cbv iota. rewrite E.
  destruct (curr ?= 0)%Q; reflexivity.
Qed.

(** C2 on the code. The growth rate is computed for every pair of
    consecutive years without a test of the previous sum: from a previous
    sum of 0 it is [+inf], [-inf] or NaN according to the sign of the
    current sum. After a year without income, a year with an income of
    100.00 is printed with the income growth [+inf]. *)
Theorem growth_rate_of_zero_previous :
  (forall curr : Q,
     growth (Fin curr) F.zero
     = match (curr ?= 0)%Q with Lt => NInf | Eq => NaN | Gt => PInf end)
  /\ map (fun g => (g_prev_year g, g_curr_year g, g_income_growth g))
         (snd (analyze_yearly_trends
                 (Examples.cleaned [Examples.expense_2023; Examples.income_2024])))
     = [ (2023%Z, 2024%Z, PInf) ]
  /\ map (fun b => (b_key b, b_income b))
         (fst (analyze_yearly_trends
                 (Examples.cleaned [Examples.expense_2023; Examples.income_2024])))
     = [ (2023%Z, Fin 0); (2024%Z, Fin 100) ].
Proof.
  split; [exact growth_from_zero|].
  split; vm_compute; reflexivity.
Qed.

(** ** Categorizer *)

Section CategorizerFacts.

Variable search : string -> string -> bool.

Lemma row_scan_app (t : txn) (l1 l2 : list (string * string * string)) (a : string) :
  row_scan search t (l1 ++ l2) a = row_scan search t l2 (row_scan search t l1 a).
Proof. apply fold_left_app. Qed.

Lemma loc_assign_map (f : txn -> bool) (c : string) (g : txn -> string)
    (l : list txn) :
  loc_assign (map f l) c (map g l) = map (fun t => if f t then c else g t) l.
Proof.
  unfold loc_assign. induction l as [|t l IH]; simpl; [reflexivity|].
  f_equal. exact IH.
Qed.

Lemma scan_keywords_rowwise (df : frame) (category col : string)
    (keywords : list string) (g : txn -> string) :
  scan_keywords search df category col keywords (map g (rows df))
  = map (fun t =>
           row_scan search t (map (fun keyword => (category, col, keyword)) keywords) (g t))
        (rows df).
Proof.
  unfold scan_keywords. revert g.
  induction keywords as [|k ks IH]; intros g; simpl.
  - reflexivity.
  - unfold contains_mask. rewrite loc_assign_map. rewrite IH. reflexivity.
Qed.

Lemma scan_columns_rowwise (df : frame) (rule : string * list string)
    (cols : list string) (g : txn -> string) :
  fold_left (fun a col =>
               if has_column df col
               then scan_keywords search df (fst rule) col (snd rule) a
               else a)
            cols (map g (rows df))
  = map (fun t => row_scan search t (column_order df rule cols) (g t)) (rows df).
Proof.
  revert g. induction cols as [|col cols IH]; intros g; simpl.
  - reflexivity.
  - destruct (has_column df col).
    + rewrite scan_keywords_rowwise, IH.
      apply map_ext. intros t. rewrite row_scan_app. reflexivity.
    + rewrite IH. reflexivity.
Qed.

Lemma scan_rules_rowwise (df : frame) (rules : list (string * list string))
    (g : txn -> string) :
  fold_left (fun a rule => scan_columns search df (fst rule) (snd rule) a)
            rules (map g (rows df))
  = map (fun t => row_scan search t (rule_order rules df) (g t)) (rows df).
Proof.
  revert g. induction rules as [|rule rules IH]; intros g; simpl.
  - reflexivity.
  - unfold scan_columns at 2. rewrite scan_columns_rowwise, IH.
    apply map_ext. intros t. rewrite row_scan_app. reflexivity.
Qed.

Lemma find_app_split {A : Type} (f : A -> bool) (l1 l2 : list A) :
  find f (l1 ++ l2)
  = match find f l1 with Some x => Some x | None => find f l2 end.
Proof.
  induction l1 as [|x l1 IH]; simpl; [reflexivity|].
  destruct (f x); [reflexivity | exact IH].
Qed.

Lemma find_all_false {A : Type} (f : A -> bool) (l : list A) :
  (forall x, In x l -> f x = false) -> find f l = None.
Proof.
  induction l as [|x l IH]; simpl; intros H; [reflexivity|].
  rewrite (H x (or_introl eq_refl)). apply IH. intros y Hy. apply H. now right.
Qed.

Lemma row_scan_last (t : txn) (order : list (string * string * string))
    (a : string) :
  row_scan search t order a
  = match find (rule_matches search t) (rev order) with
    | Some (category, _, _) => category
    | None => a
    end.
Proof.
  revert a. induction order as [|r order IH]; intros a; simpl.
  - reflexivity.
  - unfold row_scan in *. simpl. rewrite IH, find_app_split.
    destruct (find (rule_matches search t) (rev order)) as [[[c ?] ?]|].
    + reflexivity.
    + simpl. destruct (rule_matches search t r); [|reflexivity].
      destruct r as [[c ?] ?]. reflexivity.
Qed.

(** Row by row, the column computed by the loops holds the category of
    the last matching rule. *)
Lemma auto_categorize_rowwise (rules : list (string * list string)) (df : frame) :
  auto_categorize search rules df = map (last_match search rules df) (rows df).
Proof.
  unfold auto_categorize. rewrite scan_rules_rowwise.
  apply map_ext. intros t. unfold last_match. apply row_scan_last.
Qed.

Lemma rule_order_app (df : frame) (r1 r2 : list (string * list string)) :
  rule_order (r1 ++ r2) df = rule_order r1 df ++ rule_order r2 df.
Proof. unfold rule_order. apply flat_map_app. Qed.

Lemma rule_order_In (df : frame) (rules : list (string * list string))
    (x : string * string * string) :
  In x (rule_order rules df) <->
  exists rule col keyword,
    In rule rules /\ In col text_columns /\ has_column df col = true
    /\ In keyword (snd rule) /\ x = (fst rule, col, keyword).
Proof.
  unfold rule_order. rewrite in_flat_map. split.
  - intros (rule & Hr & Hx). apply in_flat_map in Hx.
    destruct Hx as (col & Hc & Hx).
    destruct (has_column df col) eqn:E; [|contradiction].
    apply in_map_iff in Hx. destruct Hx as (keyword & <- & Hk).
    exists rule, col, keyword. auto.
  - intros (rule & col & keyword & Hr & Hc & E & Hk & ->).
    exists rule. split; [exact Hr|]. apply in_flat_map.
    exists col. split; [exact Hc|]. rewrite E. apply in_map_iff.
    exists keyword. auto.
Qed.

Lemma category_no_match (df : frame) (t : txn) (rules : list (string * list string)) :
  (forall rule, In rule rules -> category_matches search df t rule = false) ->
  forall x, In x (rule_order rules df) -> rule_matches search t x = false.
Proof.
  intros H x Hx. apply rule_order_In in Hx.
  destruct Hx as (rule & col & keyword & Hr & Hc & E & Hk & ->).
  specialize (H rule Hr). unfold category_matches in H.
  destruct (cell_contains search keyword (text_cell col t)) eqn:M; [|exact M].
  assert (X : existsb (fun col =>
                has_column df col
                && existsb (fun keyword =>
                              cell_contains search keyword (text_cell col t))
                           (snd rule)) text_columns = true).
  { apply existsb_exists. exists col. split; [exact Hc|].
    rewrite E. simpl. apply existsb_exists. exists keyword. auto. }
  congruence.
Qed.

Lemma last_match_values (rules : list (string * list string)) (df : frame) (t : txn) :
  last_match search rules df t = other
  \/ In (last_match search rules df t) (map fst rules).
Proof.
  unfold last_match.
  destruct (find (rule_matches search t) (rev (rule_order rules df)))
    as [[[c col] k]|] eqn:E; [|now left].
  right. apply find_some in E. destruct E as [Hx _].
  apply in_rev, rule_order_In in Hx.
  destruct Hx as (rule & col' & k' & Hr & _ & _ & _ & Ex).
  injection Ex as -> _ _. apply in_map. exact Hr.
Qed.

End CategorizerFacts.

(** C3. The column computed by the three nested loops holds, for every
    row, the category of the last rule in iteration order (categories in
    their defined order, then the text columns, then the keywords) that
    matches the row, and ['其他'] when no rule matches. In particular a row
    that matches a keyword of category [a] in the first text column and a
    keyword of a later category [b] in the second, and no category declared
    after [b], ends with [b]. *)
Theorem auto_category_last_rule_wins (search : string -> string -> bool)
    (rules : list (string * list string)) (df : frame) :
  auto_categorize search rules df = map (last_match search rules df) (rows df)
  /\ forall pre a ka mid b kb post t wa wb,
       rules = pre ++ (a, ka) :: mid ++ (b, kb) :: post ->
       has_column df col_detail = true ->
       has_column df col_place = true ->
       In wa ka -> cell_contains search wa (t_detail t) = true ->
       In wb kb -> cell_contains search wb (t_place t) = true ->
       (forall rule, In rule post -> category_matches search df t rule = false) ->
       last_match search rules df t = b.
Proof.
  split; [apply auto_categorize_rowwise|].
  intros pre a ka mid b kb post t wa wb -> Hd Hp Hwa Ma Hwb Mb Hpost.
  unfold last_match.
  replace (pre ++ (a, ka) :: mid ++ (b, kb) :: post)
    with ((pre ++ (a, ka) :: mid) ++ [(b, kb)] ++ post)
    by (rewrite <- !app_assoc; reflexivity).
  rewrite !rule_order_app, !rev_app_distr, <- !app_assoc, !find_app_split.
  rewrite (find_all_false _ (rev (rule_order post df))).
  2:{ intros x Hx. apply in_rev in Hx.
      exact (category_no_match search df t post Hpost x Hx). }
  destruct (find (rule_matches search t) (rev (rule_order [(b, kb)] df)))
    as [[[c col] k]|] eqn:E.
  - apply find_some in E. destruct E as [Hx _].
    apply in_rev, rule_order_In in Hx.
    destruct Hx as (rule & col' & k' & [<- | []] & _ & _ & _ & Ex).
    injection Ex as -> _ _. reflexivity.
  - exfalso.
    assert (Hin : In (b, col_place, wb) (rev (rule_order [(b, kb)] df))).
    { apply in_rev. rewrite rev_involutive. apply rule_order_In.
      exists (b, kb), col_place, wb. simpl. repeat split; auto. }
    pose proof (find_none _ _ E _ Hin) as F. simpl in F.
    change (text_cell col_place t) with (t_place t) in F. congruence.
Qed.

Lemma auto_category_last_rule_wins_witness :
  category_rules
  = [] ++ ("餐饮", snd (nth 0 category_rules ("", [])))
       :: [] ++ ("交通", snd (nth 1 category_rules ("", [])))
       :: skipn 2 category_rules
  /\ auto_categorize Instances.literal_search category_rules
       Examples.purchase_frame
     = ["交通"].
Proof.
  split; [reflexivity|].
  destruct (auto_category_last_rule_wins Instances.literal_search category_rules
              Examples.purchase_frame) as [Hall Hlast].
  rewrite Hall. change (rows Examples.purchase_frame)
    with (Examples.cleaned [Examples.purchase_row]).
  set (t := Examples.cleaned [Examples.purchase_row]).
  vm_compute in t. subst t. simpl map.
  apply (f_equal (fun c => [c])).
  match goal with
  | |- last_match _ _ _ ?t = _ =>
      apply (Hlast [] "餐饮" (snd (nth 0 category_rules ("", [])))
                   [] "交通" (snd (nth 1 category_rules ("", [])))
                   (skipn 2 category_rules) t "美团" "地铁")
  end.
  - reflexivity.
  - reflexivity.
  - reflexivity.
  - simpl. auto.
  - vm_compute. reflexivity.
  - simpl. auto 10.
  - vm_compute. reflexivity.
  - intros rule Hr. simpl in Hr.
    repeat (destruct Hr as [<- | Hr]; [vm_compute; reflexivity|]).
    contradiction.
Defined.

(** C9. After the loops every row has an automatic category, and it is
    ['其他'] or one of the category names of the rule dictionary. *)
Theorem auto_category_in_configured_set (search : string -> string -> bool)
    (rules : list (string * list string)) (df : frame) :
  List.length (auto_categorize search rules df) = List.length (rows df)
  /\ Forall (fun c => c = other \/ In c (map fst rules))
            (auto_categorize search rules df).
Proof.
  rewrite auto_categorize_rowwise. split; [apply length_map|].
  apply Forall_forall. intros c Hc. apply in_map_iff in Hc.
  destruct Hc as (t & <- & _). apply last_match_values.
Qed.

(** ** AggregationEngine: groups partition the table *)

Section GroupByFacts.

Context {K : Type}.
Variable cmp : K -> K -> comparison.
Hypothesis cmp_eq : forall a b, cmp a b = Eq <-> a = b.

Lemma key_eqb_eq (a b : K) : key_eqb cmp a b = true <-> a = b.
Proof.
  unfold key_eqb. rewrite <- cmp_eq.
  destruct (cmp a b); split; congruence.
Qed.

Lemma insert_key_perm (k : K) (l : list K) :
  Permutation (insert_key cmp k l) (k :: l).
Proof.
  induction l as [|h r IH]; simpl; [reflexivity|].
  destruct (cmp k h); try reflexivity.
  rewrite IH. apply perm_swap.
Qed.

Lemma sort_keys_perm (l : list K) : Permutation (sort_keys cmp l) l.
Proof.
  induction l as [|k l IH]; simpl; [reflexivity|].
  rewrite insert_key_perm. now apply perm_skip.
Qed.

Lemma dedup_In (k : K) (l : list K) : In k (dedup cmp l) <-> In k l.
Proof.
  induction l as [|h r IH]; simpl; [tauto|].
  rewrite filter_In, IH, negb_true_iff. split.
  - intros [-> | [H _]]; auto.
  - intros [-> | H]; [now left|].
    destruct (key_eqb cmp h k) eqn:E.
    + left. now apply key_eqb_eq.
    + right. auto.
Qed.

Lemma dedup_NoDup (l : list K) : NoDup (dedup cmp l).
Proof.
  induction l as [|h r IH]; simpl; constructor.
  - rewrite filter_In, negb_true_iff. intros [_ E].
    assert (T : key_eqb cmp h h = true) by now apply key_eqb_eq.
    congruence.
  - now apply NoDup_filter.
Qed.

Lemma group_keys_NoDup (l : list K) : NoDup (group_keys cmp l).
Proof.
  unfold group_keys.
  apply (Permutation_NoDup (Permutation_sym (sort_keys_perm _))).
  apply dedup_NoDup.
Qed.

Lemma group_keys_In (k : K) (l : list K) : In k (group_keys cmp l) <-> In k l.
Proof.
  unfold group_keys. split; intros H.
  - apply dedup_In. revert H. apply Permutation_in, sort_keys_perm.
  - apply dedup_In in H. revert H.
    apply Permutation_in, Permutation_sym, sort_keys_perm.
Qed.

End GroupByFacts.

(** *** Sums of rationals *)

Lemma Qsum_ext {A : Type} (f g : A -> Q) (l : list A) :
  (forall x, In x l -> f x == g x) -> Qsum (map f l) == Qsum (map g l).
Proof.
  induction l as [|x l IH]; simpl; intros H; [reflexivity|].
  rewrite (H x (or_introl eq_refl)), IH; [reflexivity|].
  intros y Hy. apply H. now right.
Qed.

Lemma Qsum_plus {A : Type} (f g : A -> Q) (l : list A) :
  Qsum (map (fun x => f x + g x) l) == Qsum (map f l) + Qsum (map g l).
Proof.
  induction l as [|x l IH]; simpl; [reflexivity|]. rewrite IH. ring.
Qed.

Lemma Qsum_zero {A : Type} (l : list A) : Qsum (map (fun _ => 0) l) == 0.
Proof.
  induction l as [|x l IH]; simpl; [reflexivity|]. rewrite IH. ring.
Qed.

Lemma fold_left_Qplus (l : list Q) (a : Q) :
  fold_left Qplus l a == a + Qsum l.
Proof.
  revert a. induction l as [|x l IH]; intros a; simpl; [ring|].
  rewrite IH. ring.
Qed.

Section Partition.

Context {K R : Type}.
Variable cmp : K -> K -> comparison.
Hypothesis cmp_eq : forall a b, cmp a b = Eq <-> a = b.
Variable key : R -> K.
Variable f : R -> Q.

Lemma Qsum_pick_absent (a : K) (v : Q) (ks : list K) :
  ~ In a ks ->
  Qsum (map (fun k => if key_eqb cmp a k then v else 0) ks) == 0.
Proof.
  induction ks as [|k ks IH]; simpl; intros H; [reflexivity|].
  destruct (key_eqb cmp a k) eqn:E.
  - exfalso. apply H. left. symmetry. now apply (key_eqb_eq cmp cmp_eq).
  - rewrite IH; [ring | tauto].
Qed.

Lemma Qsum_pick (a : K) (v : Q) (ks : list K) :
  NoDup ks -> In a ks ->
  Qsum (map (fun k => if key_eqb cmp a k then v else 0) ks) == v.
Proof.
  induction 1 as [|k ks Hk Hnd IH]; simpl; [tauto|].
  intros [-> | Hin].
  - assert (T : key_eqb cmp a a = true) by now apply (key_eqb_eq cmp cmp_eq).
    rewrite T, (Qsum_pick_absent a v ks Hk). ring.
  - destruct (key_eqb cmp a k) eqn:E.
    + apply (key_eqb_eq cmp cmp_eq) in E. subst. contradiction.
    + rewrite (IH Hin). ring.
Qed.

(** The sums of the groups of any duplicate-free key list that covers the
    table add up to the sum over the table. *)
Lemma Qsum_groups (ks : list K) (df : list R) :
  NoDup ks -> (forall t, In t df -> In (key t) ks) ->
  Qsum (map (fun k => Qsum (map f (filter (fun t => key_eqb cmp (key t) k) df))) ks)
  == Qsum (map f df).
Proof.
  intros Hnd. induction df as [|t df IH]; intros Hcov.
  - simpl. apply Qsum_zero.
  - transitivity
      (Qsum (map (fun k =>
                    (if key_eqb cmp (key t) k then f t else 0)
                    + Qsum (map f (filter (fun t => key_eqb cmp (key t) k) df)))
                 ks)).
    + apply Qsum_ext. intros k _. simpl.
      destruct (key_eqb cmp (key t) k); simpl; ring.
    + rewrite Qsum_plus, IH by (intros u Hu; apply Hcov; now right).
      rewrite (Qsum_pick (key t) (f t) ks Hnd (Hcov t (or_introl eq_refl))).
      reflexivity.
Qed.

Lemma Qsum_groupby (df : list R) :
  Qsum (map (fun g => Qsum (map f (snd g))) (groupby cmp key df))
  == Qsum (map f df).
Proof.
  unfold groupby. rewrite map_map. simpl.
  apply Qsum_groups.
  - apply (group_keys_NoDup cmp cmp_eq).
  - intros t Ht. apply (group_keys_In cmp cmp_eq). now apply in_map.
Qed.

Lemma groupby_In (df : list R) (g : K * list R) (t : R) :
  In g (groupby cmp key df) -> In t (snd g) -> In t df.
Proof.
  unfold groupby. intros Hg Ht. apply in_map_iff in Hg.
  destruct Hg as (k & <- & _). simpl in Ht. now apply filter_In in Ht.
Qed.

End Partition.

(** *** Rounding and sums of money *)

(** [q] is a whole number of hundredths. *)
Lemma whole_cents_spec (q : Q) :
  whole_cents q = true -> exists k : Z, q * 100 == inject_Z k.
Proof.
  unfold whole_cents. intros H. apply Z.eqb_eq in H.
  apply Z.mod_divide in H; [|discriminate].
  destruct H as [k Hk]. exists k. destruct q as [n d]. simpl in Hk.
  unfold Qeq, Qmult, inject_Z. cbn [Qnum Qden].
  rewrite Pos.mul_1_r, Z.mul_1_r. exact Hk.
Qed.

Lemma rint_comp (a b : Q) : a == b -> F.rint a = F.rint b.
Proof.
  intros E. unfold F.rint. rewrite (Qfloor_comp a b E).
  assert (C : (a - inject_Z (Qfloor b) ?= 1 # 2)%Q
              = (b - inject_Z (Qfloor b) ?= 1 # 2)%Q).
  { apply Qcompare_comp; [rewrite E|]; reflexivity. }
  rewrite C. reflexivity.
Qed.

Lemma rint_Z (k : Z) : F.rint (inject_Z k) = k.
Proof.
  unfold F.rint. rewrite Qfloor_Z.
  assert (C : (inject_Z k - inject_Z k ?= 1 # 2)%Q = Lt).
  { apply Qlt_alt. setoid_replace (inject_Z k - inject_Z k) with 0 by ring.
    reflexivity. }
  rewrite C. reflexivity.
Qed.

Lemma round_dec_cents (q : Q) :
  (exists k : Z, q * 100 == inject_Z k) -> F.round_dec 2 q == q.
Proof.
  intros [k Hk]. unfold F.round_dec. rewrite Qred_correct.
  change (inject_Z (10 ^ Z.of_nat 2)) with 100.
  rewrite (rint_comp _ _ Hk), rint_Z, <- Hk. field.
Qed.

Lemma cents_Qsum {A : Type} (f : A -> Q) (l : list A) :
  (forall x, In x l -> exists k : Z, f x * 100 == inject_Z k) ->
  exists k : Z, Qsum (map f l) * 100 == inject_Z k.
Proof.
  induction l as [|x l IH]; simpl; intros H.
  - exists 0%Z. reflexivity.
  - destruct (H x (or_introl eq_refl)) as [a Ha].
    destruct IH as [b Hb]; [intros y Hy; apply H; now right|].
    exists (a + b)%Z. rewrite inject_Z_plus, <- Ha, <- Hb. ring.
Qed.

Lemma fold_add_finite (xs : list fval) (a : Q) :
  Forall (fun x => x = Fin (qv x)) xs ->
  fold_left F.add xs (Fin a) = Fin (fold_left Qplus (map qv xs) a).
Proof.
  intros H. revert a. induction H as [|x xs Hx _ IH]; intros a; simpl.
  - reflexivity.
  - rewrite Hx at 1. simpl. apply IH.
Qed.

Lemma sum_finite (xs : list fval) :
  Forall (fun x => x = Fin (qv x)) xs ->
  F.sum xs = Fin (fold_left Qplus (map qv xs) 0).
Proof.
  intros H. unfold F.sum, F.zero.
  assert (E : filter (fun x => negb (F.isna x)) xs = xs).
  { clear -H. induction H as [|x xs Hx _ IH]; simpl; [reflexivity|].
    rewrite Hx. simpl. now rewrite IH. }
  rewrite E. now apply fold_add_finite.
Qed.

Lemma money_spec (x : fval) :
  money x = true ->
  x = Fin (qv x) /\ 0 <= qv x /\ exists k : Z, qv x * 100 == inject_Z k.
Proof.
  destruct x as [q| | |]; simpl; try discriminate.
  intros H. apply andb_prop in H. destruct H as [Hle Hc].
  split; [reflexivity|]. split; [now apply Qle_bool_iff|].
  now apply whole_cents_spec.
Qed.

Lemma Qsum_positive_rows (col : txn -> fval) (df : list txn) :
  (forall t, In t df -> money (col t) = true) ->
  Qsum (map (fun t => qv (col t)) (filter (fun t => F.gt (col t) F.zero) df))
  == Qsum (map (fun t => qv (col t)) df).
Proof.
  induction df as [|t df IH]; simpl; intros H; [reflexivity|].
  assert (IH' := IH (fun u Hu => H u (or_intror Hu))).
  destruct (money_spec _ (H t (or_introl eq_refl))) as (E & Hle & _).
  destruct (F.gt (col t) F.zero) eqn:G; simpl.
  - now rewrite IH'.
  - rewrite IH'. rewrite E in G. simpl in G.
    destruct (Qcompare_spec (qv (col t)) 0) as [Z|L|P]; try discriminate.
    + rewrite Z. ring.
    + exfalso. exact (Qlt_not_le _ _ L Hle).
Qed.

Lemma string_compare_eq (a b : string) : String.compare a b = Eq <-> a = b.
Proof.
  split; [apply String.compare_eq_iff|]. intros <-.
  induction a as [|c a IH]; simpl; [reflexivity|].
  unfold Ascii.compare. rewrite N.compare_refl. exact IH.
Qed.

Lemma category_table_totals (col : txn -> fval) (df : list txn) :
  map c_total (category_table col df) = category_totals col df.
Proof.
  unfold category_table, category_totals. rewrite map_map. reflexivity.
Qed.

(** Over a table whose amounts in column [col] are money, the rounded
    totals of the categories add up to the sum of the column. *)
Lemma categories_sum_money (col : txn -> fval) (df : list txn) :
  (forall t, In t df -> money (col t) = true) ->
  F.eqv (categories_sum col df) (F.sum (map col df)).
Proof.
  intros H. set (f := fun t => qv (col t)).
  set (pos := filter (fun t => F.gt (col t) F.zero) df).
  assert (Hpos : forall t, In t pos -> money (col t) = true).
  { intros t Ht. apply H. unfold pos in Ht. now apply filter_In in Ht. }
  assert (Hgrp : forall g t, In g (category_groups col df) -> In t (snd g) ->
                             money (col t) = true).
  { intros g t Hg Ht. apply Hpos.
    exact (groupby_In String.compare t_category pos g t Hg Ht). }
  assert (Hfin : forall l : list txn,
             (forall t, In t l -> money (col t) = true) ->
             F.sum (map col l) = Fin (fold_left Qplus (map f l) 0)).
  { intros l Hl. rewrite sum_finite.
    - now rewrite map_map.
    - apply Forall_forall. intros x Hx. apply in_map_iff in Hx.
      destruct Hx as (t & <- & Ht). apply (money_spec _ (Hl t Ht)). }
  assert (Htot : category_totals col df
                 = map (fun g => Fin (F.round_dec 2
                                        (fold_left Qplus (map f (snd g)) 0)))
                       (category_groups col df)).
  { unfold category_totals. apply map_ext_in. intros g Hg.
    rewrite (Hfin (snd g) (fun t Ht => Hgrp g t Hg Ht)). reflexivity. }
  unfold categories_sum. rewrite Htot, (Hfin df H).
  rewrite sum_finite, map_map by
    (apply Forall_forall; intros x Hx; apply in_map_iff in Hx;
     destruct Hx as (g & <- & _); reflexivity).
  cbn [F.eqv]. rewrite (fold_left_Qplus (map f df) 0).
  etransitivity; [apply fold_left_Qplus|]. rewrite !Qplus_0_l.
  transitivity (Qsum (map (fun g => Qsum (map f (snd g)))
                          (category_groups col df))).
  - apply Qsum_ext. intros g Hg. cbn [qv].
    assert (E : fold_left Qplus (map f (snd g)) 0 == Qsum (map f (snd g)))
      by (rewrite fold_left_Qplus; ring).
    rewrite round_dec_cents; [exact E|].
    destruct (cents_Qsum f (snd g)) as [k Hk].
    + intros t Ht. apply (money_spec _ (Hgrp g t Hg Ht)).
    + exists k. rewrite E. exact Hk.
  - unfold category_groups. fold pos.
    rewrite (Qsum_groupby String.compare string_compare_eq t_category f pos).
    apply Qsum_positive_rows. exact H.
Qed.

(** C4, as the code has it. Over a cleaned table whose expense amounts
    are all finite, non-negative and whole numbers of cents, the totals of
    the expense category table add up to the total expense of the overall
    summary; likewise for income. *)
Theorem category_totals_partition (df : list txn) :
  (forallb (fun t => money (t_expense t)) df = true ->
   F.eqv (F.sum (map c_total (snd (analyze_categories df))))
         (total_expense (analyze_overall_summary df)))
  /\ (forallb (fun t => money (t_income t)) df = true ->
      F.eqv (F.sum (map c_total (fst (analyze_categories df))))
            (total_income (analyze_overall_summary df))).
Proof.
  split; intros H; rewrite forallb_forall in H; simpl;
    rewrite category_table_totals; now apply categories_sum_money.
Qed.

Lemma category_totals_partition_witness :
  forallb (fun t => money (t_expense t)) (Examples.cleaned Examples.shopping) = true
  /\ forallb (fun t => money (t_income t)) (Examples.cleaned Examples.shopping) = true
  /\ F.eqv (F.sum (map c_total (snd (analyze_categories
                                       (Examples.cleaned Examples.shopping)))))
           (total_expense (analyze_overall_summary
                             (Examples.cleaned Examples.shopping)))
  /\ F.eqv (F.sum (map c_total (fst (analyze_categories
                                       (Examples.cleaned Examples.shopping)))))
           (total_income (analyze_overall_summary
                            (Examples.cleaned Examples.shopping))).
Proof.
  split; [vm_compute; reflexivity|]. split; [vm_compute; reflexivity|].
  destruct (category_totals_partition (Examples.cleaned Examples.shopping))
    as [He Hi].
  split; [apply He | apply Hi]; vm_compute; reflexivity.
Defined.

(** C4, as the specification words it, fails. A refund booked as a negative
    expense is left out of the expense categories, which keep the rows with
    a strictly positive expense, and counts in the total expense: the
    categories add up to 0, the total is -5. Two purchases of 0.004 in two
    categories are each rounded to 0.00 in their category and add up to
    0.008 in the total. *)
Lemma category_totals_miss_total :
  F.sum (map c_total (snd (analyze_categories
                             (Examples.cleaned [Examples.negative_expense_row]))))
  = Fin 0
  /\ total_expense (analyze_overall_summary
                      (Examples.cleaned [Examples.negative_expense_row]))
     = Fin (-5)
  /\ ~ F.eqv (Fin 0) (Fin (-5))
  /\ F.sum (map c_total (snd (analyze_categories
                                (Examples.cleaned Examples.sub_cent))))
     = Fin 0
  /\ F.eqv (total_expense (analyze_overall_summary
                             (Examples.cleaned Examples.sub_cent)))
           (Fin (8 # 1000))
  /\ ~ F.eqv (Fin 0) (Fin (8 # 1000)).
Proof.
  split; [vm_compute; reflexivity|].
  split; [vm_compute; reflexivity|].
  split; [simpl; intros H; discriminate H|].
  split; [vm_compute; reflexivity|].
  split; [vm_compute; reflexivity|].
  simpl. intros H. discriminate H.
Qed.

(** * Further properties of the analyzers *)

(** ** Cleaning *)

Lemma row_filter_keeps (df : list raw_row) : row_filter df = filter keeps df.
Proof.
  unfold row_filter, keeps. induction df as [|r df IH]; simpl; [reflexivity|].
  destruct (notna (r_date r)); simpl; [|exact IH].
  destruct (contains_marker (r_date r)); simpl; [exact IH|].
  destruct (match_date (r_date r)); simpl; [f_equal|]; exact IH.
Qed.

Lemma filter_idem {A : Type} (f : A -> bool) (l : list A) :
  filter f (filter f l) = filter f l.
Proof.
  induction l as [|x l IH]; simpl; [reflexivity|].
  destruct (f x) eqn:E; simpl; [rewrite E; f_equal|]; exact IH.
Qed.

(** Filtering is row by row: filtering twice is filtering once, and the
    filter of two tables laid end to end is the two filtered tables laid
    end to end, in the order of the input. *)
Theorem row_filter_rowwise (a b : list raw_row) :
  row_filter (row_filter a) = row_filter a
  /\ row_filter (a ++ b) = row_filter a ++ row_filter b.
Proof.
  rewrite !row_filter_keeps. split; [apply filter_idem | apply filter_app].
Qed.

Lemma clean_rows_length (to_numeric : string -> fval)
    (to_datetime : string -> option (Z * Z * Z)) (l : list raw_row) (ts : list txn) :
  clean_rows to_numeric to_datetime l = Some ts -> List.length ts = List.length l.
Proof.
  revert ts. induction l as [|r l IH]; simpl; intros ts H.
  - injection H as <-. reflexivity.
  - destruct (clean_row to_numeric to_datetime r); [|discriminate].
    destruct (clean_rows to_numeric to_datetime l); [|discriminate].
    injection H as <-. simpl. f_equal. now apply IH.
Qed.

Lemma clean_rows_In (to_numeric : string -> fval)
    (to_datetime : string -> option (Z * Z * Z)) (l : list raw_row)
    (ts : list txn) (t : txn) :
  clean_rows to_numeric to_datetime l = Some ts -> In t ts ->
  exists r, In r l /\ clean_row to_numeric to_datetime r = Some t.
Proof.
  revert ts. induction l as [|r l IH]; simpl; intros ts H Ht.
  - injection H as <-. contradiction.
  - destruct (clean_row to_numeric to_datetime r) as [u|] eqn:E; [|discriminate].
    destruct (clean_rows to_numeric to_datetime l) as [us|]; [|discriminate].
    injection H as <-. destruct Ht as [<- | Ht].
    + exists r. auto.
    + destruct (IH us eq_refl Ht) as (r' & Hr & Hc). exists r'. auto.
Qed.


Lemma clean_data_rows (to_numeric : string -> fval)
    (to_datetime : string -> option (Z * Z * Z)) (raw : list raw_row)
    (df : list txn) (rep : clean_report) :
  clean_and_preprocess_data to_numeric to_datetime raw = Some (df, rep) ->
  clean_rows to_numeric to_datetime (row_filter raw) = Some df.
Proof.
  unfold clean_and_preprocess_data.
  destruct (clean_rows to_numeric to_datetime (row_filter raw)); [|discriminate].
  intros H. injection H as <- _. reflexivity.
Qed.

(** The three counts that a completed cleaning run prints fit together:
    the rows kept and the rows removed add up to the rows read, and the
    cleaned table has exactly one row for every row kept. *)
Theorem clean_report_counts (to_numeric : string -> fval)
    (to_datetime : string -> option (Z * Z * Z)) (raw : list raw_row)
    (df : list txn) (rep : clean_report) :
  clean_and_preprocess_data to_numeric to_datetime raw = Some (df, rep) ->
  original_count rep = List.length raw
  /\ (filtered_count rep + removed_count rep = original_count rep)%nat
  /\ List.length df = filtered_count rep
  /\ shape_rows rep = filtered_count rep.
Proof.
  intros H. pose proof (clean_data_rows _ _ _ _ _ H) as Hrows.
  apply clean_rows_length in Hrows.
  unfold clean_and_preprocess_data in H.
  destruct (clean_rows to_numeric to_datetime (row_filter raw)); [|discriminate].
  injection H as <- <-. simpl.
  assert (L : (List.length (row_filter raw) <= List.length raw)%nat)
    by (rewrite row_filter_keeps; apply filter_length_le).
  repeat split; try assumption. lia.
Qed.

Lemma clean_report_counts_witness :
  exists df rep,
    clean_and_preprocess_data Instances.decimal_to_numeric Instances.iso_to_datetime
      (Examples.footer_row :: Examples.shopping) = Some (df, rep)
    /\ original_count rep = 5%nat /\ filtered_count rep = 4%nat
    /\ removed_count rep = 1%nat /\ List.length df = 4%nat.
Proof.
  eexists. eexists. split; [vm_compute; reflexivity|].
  match goal with
  | |- original_count ?rep = _ /\ _ =>
      destruct (clean_report_counts Instances.decimal_to_numeric
                  Instances.iso_to_datetime (Examples.footer_row :: Examples.shopping)
                  _ rep ltac:(vm_compute; reflexivity)) as (H1 & H2 & H3 & H4)
  end.
  split; [exact H1|]. split; [reflexivity|]. split; [reflexivity|].
  rewrite H3. reflexivity.
Defined.



(** ** The overall summary *)

Lemma finite_spec (x : fval) : finite x = true -> x = Fin (qv x).
Proof. destruct x; simpl; try discriminate; reflexivity. Qed.

Lemma sum_finite_col (col : txn -> fval) (df : list txn) :
  (forall t, In t df -> finite (col t) = true) ->
  F.sum (map col df) = Fin (fold_left Qplus (map (fun t => qv (col t)) df) 0).
Proof.
  intros H. rewrite sum_finite.
  - now rewrite map_map.
  - apply Forall_forall. intros x Hx. apply in_map_iff in Hx.
    destruct Hx as (t & <- & Ht). apply finite_spec, H, Ht.
Qed.

Lemma Qsum_minus {A : Type} (f g : A -> Q) (l : list A) :
  Qsum (map (fun x => f x + - g x) l) == Qsum (map f l) + - Qsum (map g l).
Proof.
  induction l as [|x l IH]; simpl; [ring|]. rewrite IH. ring.
Qed.

(** When every amount of the cleaned table is finite, the net total that
    the cleaning run prints (the sum of the net amounts of the rows) is the
    net balance of the overall summary (total income minus total
    expense). *)
Theorem net_total_is_net_balance (to_numeric : string -> fval)
    (to_datetime : string -> option (Z * Z * Z)) (raw : list raw_row)
    (df : list txn) (rep : clean_report) :
  clean_and_preprocess_data to_numeric to_datetime raw = Some (df, rep) ->
  forallb (fun t => finite (t_income t) && finite (t_expense t)) df = true ->
  F.eqv (net_printed rep) (net_balance (analyze_overall_summary df))
  /\ F.eqv (total_income_printed rep) (total_income (analyze_overall_summary df))
  /\ F.eqv (total_expense_printed rep) (total_expense (analyze_overall_summary df)).
Proof.
  intros H Hfin. pose proof (clean_data_rows _ _ _ _ _ H) as Hrows.
  rewrite forallb_forall in Hfin.
  assert (Hi : forall t, In t df -> finite (t_income t) = true)
    by (intros t Ht; apply Hfin in Ht; now apply andb_prop in Ht).
  assert (He : forall t, In t df -> finite (t_expense t) = true)
    by (intros t Ht; apply Hfin in Ht; now apply andb_prop in Ht).
  assert (Hn : forall t, In t df ->
                 t_net t = Fin (qv (t_income t) + - qv (t_expense t))).
  { intros t Ht. destruct (clean_rows_In _ _ _ _ _ Hrows Ht) as (r & _ & Hc).
    destruct (clean_row_type _ _ _ _ Hc) as (_ & _ & _ & Hnet & _).
    rewrite Hnet, (finite_spec _ (Hi t Ht)), (finite_spec _ (He t Ht)).
    reflexivity. }
  unfold clean_and_preprocess_data in H. rewrite Hrows in H.
  injection H as <-. simpl.
  rewrite (sum_finite_col t_income df Hi), (sum_finite_col t_expense df He).
  assert (Hnet : F.sum (map t_net df)
                 = Fin (fold_left Qplus
                          (map (fun t => qv (t_income t) + - qv (t_expense t)) df) 0)).
  { rewrite sum_finite.
    - rewrite map_map. f_equal. f_equal. apply map_ext_in.
      intros t Ht. rewrite (Hn t Ht). reflexivity.
    - apply Forall_forall. intros x Hx. apply in_map_iff in Hx.
      destruct Hx as (t & <- & Ht). rewrite (Hn t Ht). reflexivity. }
  rewrite Hnet. cbn [F.sub F.neg F.add F.eqv].
  split; [|split; reflexivity].
  rewrite !fold_left_Qplus, !Qplus_0_l.
  apply (Qsum_minus (fun t => qv (t_income t)) (fun t => qv (t_expense t))).
Qed.

Lemma net_total_is_net_balance_witness :
  exists df rep,
    clean_and_preprocess_data Instances.decimal_to_numeric Instances.iso_to_datetime
      Examples.shopping = Some (df, rep)
    /\ F.eqv (net_printed rep) (net_balance (analyze_overall_summary df))
    /\ F.eqv (net_printed rep) (Fin (-91975 # 100)).
Proof.
  eexists. eexists. split; [vm_compute; reflexivity|].
  split.
  - match goal with
    | |- F.eqv (net_printed ?rep) (net_balance (analyze_overall_summary ?df)) =>
        apply (net_total_is_net_balance Instances.decimal_to_numeric
                 Instances.iso_to_datetime Examples.shopping df rep)
    end; vm_compute; reflexivity.
  - vm_compute. reflexivity.
Defined.

Lemma type_income_test (income expense : fval) :
  (transaction_type income expense =? type_income) = F.gt income F.zero.
Proof.
  unfold transaction_type.
  destruct (F.gt income F.zero); [reflexivity|].
  destruct (F.gt expense F.zero); reflexivity.
Qed.

Lemma type_expense_test (income expense : fval) :
  (transaction_type income expense =? type_expense)
  = negb (F.gt income F.zero) && F.gt expense F.zero.
Proof.
  unfold transaction_type.
  destruct (F.gt income F.zero); [reflexivity|].
  destruct (F.gt expense F.zero); reflexivity.
Qed.

(** In a cleaned table the number of income transactions of the overall
    summary is the number of rows of the income type, and the number of
    expense transactions is the number of rows of the expense type plus the
    number of rows whose two amounts are both positive, which carry the
    income type. *)
Theorem transaction_counts_by_type (to_numeric : string -> fval)
    (to_datetime : string -> option (Z * Z * Z)) (raw : list raw_row)
    (df : list txn) (rep : clean_report) :
  clean_and_preprocess_data to_numeric to_datetime raw = Some (df, rep) ->
  income_transactions (analyze_overall_summary df)
  = List.length (filter (fun t => String.eqb (t_type t) type_income) df)
  /\ expense_transactions (analyze_overall_summary df)
     = (List.length (filter (fun t => String.eqb (t_type t) type_expense) df)
        + List.length (filter (fun t => F.gt (t_income t) F.zero
                                        && F.gt (t_expense t) F.zero) df))%nat.
Proof.
  intros H. pose proof (clean_data_rows _ _ _ _ _ H) as Hrows.
  assert (Ht : forall t, In t df ->
                 t_type t = transaction_type (t_income t) (t_expense t)).
  { intros t Hin. destruct (clean_rows_In _ _ _ _ _ Hrows Hin) as (r & _ & Hc).
    apply (clean_row_type _ _ _ _ Hc). }
  clear H Hrows. simpl. unfold count_positive.
  induction df as [|t df IH]; [split; reflexivity|].
  destruct IH as [IHi IHe]; [intros u Hu; apply Ht; now right|].
  pose proof (Ht t (or_introl eq_refl)) as E.
  simpl. rewrite E, type_income_test, type_expense_test.
  destruct (F.gt (t_income t) F.zero), (F.gt (t_expense t) F.zero); simpl;
    rewrite ?IHi, ?IHe; split; try reflexivity; lia.
Qed.

Lemma transaction_counts_by_type_witness :
  exists df rep,
    clean_and_preprocess_data Instances.decimal_to_numeric Instances.iso_to_datetime
      [Examples.reversal_row; Examples.purchase_row] = Some (df, rep)
    /\ expense_transactions (analyze_overall_summary df) = 2%nat
    /\ List.length (filter (fun t => String.eqb (t_type t) type_expense) df) = 1%nat.
Proof.
  eexists. eexists. split; [vm_compute; reflexivity|].
  split; [|vm_compute; reflexivity].
  match goal with
  | |- expense_transactions (analyze_overall_summary ?df) = _ =>
      destruct (transaction_counts_by_type Instances.decimal_to_numeric
                  Instances.iso_to_datetime
                  [Examples.reversal_row; Examples.purchase_row] df _
                  ltac:(vm_compute; reflexivity)) as [_ He]
  end.
  rewrite He. vm_compute. reflexivity.
Defined.

(** The savings-rate line of the overall summary is guarded: it is the
    message that the rate cannot be computed exactly when the total income
    is not positive, and when all amounts are finite the rate it prints is
    a finite number, never an infinity or NaN. *)
Theorem overall_savings_rate_guarded (df : list txn) :
  forallb (fun t => finite (t_income t) && finite (t_expense t)) df = true ->
  (overall_savings_rate (analyze_overall_summary df) = None <->
   F.gt (total_income (analyze_overall_summary df)) F.zero = false)
  /\ (forall r, overall_savings_rate (analyze_overall_summary df) = Some r ->
        finite r = true).
Proof.
  intros Hfin. rewrite forallb_forall in Hfin.
  assert (Hi : forall t, In t df -> finite (t_income t) = true)
    by (intros t Ht; apply Hfin in Ht; now apply andb_prop in Ht).
  assert (He : forall t, In t df -> finite (t_expense t) = true)
    by (intros t Ht; apply Hfin in Ht; now apply andb_prop in Ht).
  unfold overall_savings_rate. simpl.
  rewrite (sum_finite_col t_income df Hi), (sum_finite_col t_expense df He).
  set (ti := fold_left Qplus (map (fun t => qv (t_income t)) df) 0).
  set (te := fold_left Qplus (map (fun t => qv (t_expense t)) df) 0).
  cbn [F.sub F.neg F.add F.gt F.zero].
  destruct (ti ?= 0)%Q eqn:C; split; try (split; congruence);
    try (intros r Hr; discriminate Hr).
  intros r Hr. injection Hr as <-. unfold F.div. rewrite C. reflexivity.
Qed.

Lemma overall_savings_rate_guarded_witness :
  overall_savings_rate (analyze_overall_summary
                          (Examples.cleaned [Examples.purchase_row])) = None
  /\ exists r,
       overall_savings_rate (analyze_overall_summary
                               (Examples.cleaned Examples.shopping)) = Some r
       /\ finite r = true.
Proof.
  split.
  - apply (overall_savings_rate_guarded (Examples.cleaned [Examples.purchase_row]));
      vm_compute; reflexivity.
  - eexists. split; [vm_compute; reflexivity|].
    apply (overall_savings_rate_guarded (Examples.cleaned Examples.shopping));
      vm_compute; reflexivity.
Defined.

Lemma Qsum_positive (l : list Q) :
  l <> [] -> (forall q, In q l -> 0 < q) -> 0 < Qsum l.
Proof.
  induction l as [|x l IH]; simpl; intros Hne H; [congruence|].
  assert (Hx : 0 < x) by (apply H; now left).
  destruct l as [|y l'].
  - simpl. setoid_replace (x + 0) with x by ring. exact Hx.
  - assert (Hl : 0 < Qsum (y :: l')).
    { apply IH; [discriminate|]. intros q Hq. apply H. now right. }
    setoid_replace 0 with (0 + 0) at 1 by ring.
    apply Qplus_lt_le_compat; [exact Hx | apply Qlt_le_weak, Hl].
Qed.

Lemma gt_zero_spec (q : Q) : F.gt (Fin q) F.zero = true <-> 0 < q.
Proof.
  simpl. rewrite Qgt_alt. destruct (q ?= 0)%Q; split; congruence.
Qed.

(** The average amount of the overall summary is taken over the rows with
    a positive amount: it is NaN when there is no such row, and a positive
    finite number when there is one and the amounts are finite. *)
Theorem average_of_positive_rows (col : txn -> fval) (df : list txn) :
  (count_positive col df = 0%nat -> average_positive col df = NaN)
  /\ (count_positive col df <> 0%nat ->
      forallb (fun t => finite (col t)) df = true ->
      exists q, average_positive col df = Fin q /\ 0 < q).
Proof.
  unfold count_positive, average_positive.
  set (pos := filter (fun t => F.gt (col t) F.zero) df).
  split.
  - intros H. apply length_zero_iff_nil in H. rewrite H. reflexivity.
  - intros Hne Hfin. rewrite forallb_forall in Hfin.
    assert (Hpos : forall t, In t pos -> col t = Fin (qv (col t)) /\ 0 < qv (col t)).
    { intros t Ht. apply filter_In in Ht. destruct Ht as [Hin Hgt].
      pose proof (finite_spec _ (Hfin t Hin)) as E. split; [exact E|].
      rewrite E in Hgt. now apply gt_zero_spec. }
    unfold nanmean.
    assert (Hflt : filter (fun x => negb (F.isna x)) (map col pos) = map col pos).
    { clear Hne. induction pos as [|t l IH]; simpl; [reflexivity|].
      destruct (Hpos t (or_introl eq_refl)) as [E _].
      assert (N : F.isna (col t) = false) by (rewrite E; reflexivity).
      rewrite N. simpl. f_equal. apply IH. intros u Hu. apply Hpos. now right. }
    rewrite Hflt, length_map.
    assert (Hsum : F.sum (map col pos)
                   = Fin (fold_left Qplus (map (fun t => qv (col t)) pos) 0)).
    { rewrite sum_finite; [now rewrite map_map|].
      apply Forall_forall. intros x Hx. apply in_map_iff in Hx.
      destruct Hx as (t & <- & Ht). apply (Hpos t Ht). }
    rewrite Hsum.
    set (s := fold_left Qplus (map (fun t => qv (col t)) pos) 0).
    set (n := inject_Z (Z.of_nat (List.length pos))).
    assert (Hn : 0 < n).
    { unfold n. rewrite <- (Zlt_Qlt 0). lia. }
    assert (Hs : 0 < s).
    { unfold s. rewrite fold_left_Qplus, Qplus_0_l. apply Qsum_positive.
      - destruct pos; [now elim Hne | discriminate].
      - intros q Hq. apply in_map_iff in Hq. destruct Hq as (t & <- & Ht).
        apply (Hpos t Ht). }
    exists (s / n). split.
    + unfold F.div. apply Qgt_alt in Hn. rewrite Hn. reflexivity.
    + apply Qlt_shift_div_l; [exact Hn|]. now rewrite Qmult_0_l.
Qed.

Lemma average_of_positive_rows_witness :
  average_positive t_income (Examples.cleaned [Examples.purchase_row]) = NaN
  /\ exists q,
       average_positive t_expense (Examples.cleaned Examples.shopping) = Fin q
       /\ 0 < q.
Proof.
  split.
  - apply (average_of_positive_rows t_income). vm_compute. reflexivity.
  - apply (average_of_positive_rows t_expense).
    + vm_compute. discriminate.
    + vm_compute. reflexivity.
Defined.

(** ** Grouped summaries *)

Section SortedKeys.

Context {K : Type}.
Variable cmp : K -> K -> comparison.
Hypothesis cmp_eq : forall a b, cmp a b = Eq <-> a = b.
Hypothesis cmp_antisym : forall a b, cmp a b = CompOpp (cmp b a).
Hypothesis cmp_trans : forall a b c, cmp a b = Lt -> cmp b c = Lt -> cmp a c = Lt.

Lemma insert_key_sorted (k : K) (l : list K) :
  StronglySorted (fun a b => cmp a b = Lt) l -> ~ In k l ->
  StronglySorted (fun a b => cmp a b = Lt) (insert_key cmp k l).
Proof.
  induction 1 as [|h r Hr IH Hh]; simpl; intros Hk.
  - constructor; constructor.
  - destruct (cmp k h) eqn:C.
    + exfalso. apply Hk. left. symmetry. now apply cmp_eq.
    + constructor; [now constructor|]. constructor; [exact C|].
      rewrite Forall_forall in *. intros x Hx. eapply cmp_trans; eauto.
    + constructor; [apply IH; tauto|].
      rewrite Forall_forall in *. intros x Hx.
      apply (Permutation_in _ (insert_key_perm cmp k r)) in Hx.
      destruct Hx as [<- | Hx]; [|now apply Hh].
      rewrite cmp_antisym, C. reflexivity.
Qed.

Lemma group_keys_sorted (l : list K) :
  StronglySorted (fun a b => cmp a b = Lt) (group_keys cmp l).
Proof.
  unfold group_keys. pose proof (dedup_NoDup cmp cmp_eq l) as Hnd.
  induction Hnd as [|k r Hk Hnd IH]; simpl; [constructor|].
  apply insert_key_sorted; [exact IH|].
  intros Hin. apply Hk.
  exact (Permutation_in _ (sort_keys_perm cmp r) Hin).
Qed.

End SortedKeys.

Lemma groupby_keys {K R : Type} (cmp : K -> K -> comparison) (key : R -> K)
    (df : list R) :
  map fst (groupby cmp key df) = group_keys cmp (map key df).
Proof. unfold groupby. rewrite map_map. simpl. apply map_id. Qed.

Lemma StronglySorted_weaken {A : Type} (P Q : A -> A -> Prop) (l : list A) :
  (forall a b, P a b -> Q a b) -> StronglySorted P l -> StronglySorted Q l.
Proof.
  intros H. induction 1 as [|a l Hl IH Ha]; constructor; [exact IH|].
  rewrite Forall_forall in *. auto.
Qed.

Lemma period_compare_eq (a b : Z * Z) : period_compare a b = Eq <-> a = b.
Proof.
  destruct a as [y m], b as [y' m']. unfold period_compare. simpl.
  destruct (Z.compare_spec y y') as [E|L|G].
  - subst. rewrite Z.compare_eq_iff. split; [intros ->; reflexivity|].
    intros H. injection H as H. exact H.
  - split; [discriminate|]. intros H. injection H as H _. lia.
  - split; [discriminate|]. intros H. injection H as H _. lia.
Qed.

Lemma period_compare_lt (a b : Z * Z) :
  period_compare a b = Lt <->
  (fst a < fst b \/ (fst a = fst b /\ snd a < snd b))%Z.
Proof.
  unfold period_compare.
  destruct (Z.compare_spec (fst a) (fst b)) as [E|L|G].
  - rewrite Z.compare_lt_iff. split; [tauto|]. intros [H|[_ H]]; [lia | exact H].
  - split; [tauto | reflexivity].
  - split; [discriminate|]. intros [H|[H _]]; lia.
Qed.

Lemma period_compare_antisym (a b : Z * Z) :
  period_compare a b = CompOpp (period_compare b a).
Proof.
  unfold period_compare. rewrite (Z.compare_antisym (fst a) (fst b)).
  destruct (fst a ?= fst b)%Z; simpl; try reflexivity.
  apply Z.compare_antisym.
Qed.

Lemma period_compare_trans (a b c : Z * Z) :
  period_compare a b = Lt -> period_compare b c = Lt -> period_compare a c = Lt.
Proof. rewrite !period_compare_lt. lia. Qed.

Lemma Z_compare_trans (a b c : Z) :
  (a ?= b)%Z = Lt -> (b ?= c)%Z = Lt -> (a ?= c)%Z = Lt.
Proof. rewrite !Z.compare_lt_iff. lia. Qed.

Lemma Z_compare_antisym (a b : Z) : (a ?= b)%Z = CompOpp (b ?= a)%Z.
Proof. apply Z.compare_antisym. Qed.

Lemma summary_keys {K : Type} (cmp : K -> K -> comparison) (key : txn -> K)
    (df : list txn) :
  map b_key (map summarize (groupby cmp key df)) = group_keys cmp (map key df).
Proof. rewrite map_map. simpl. apply groupby_keys. Qed.

(** The yearly summary has one row for every year that occurs in the
    table and for no other, in strictly increasing order; the monthly
    summary has one row for every month of a year that occurs, in
    chronological order. *)
Theorem summaries_list_periods_in_order (df : list txn) :
  StronglySorted Z.lt (map b_key (yearly_summary df))
  /\ (forall y, In y (map b_key (yearly_summary df)) <->
                exists t, In t df /\ t_year t = y)
  /\ StronglySorted (fun a b => (fst a < fst b \/ (fst a = fst b /\ snd a < snd b))%Z)
                    (map b_key (analyze_monthly_trends df))
  /\ (forall p, In p (map b_key (analyze_monthly_trends df)) <->
                exists t, In t df /\ (t_year t, t_month t) = p).
Proof.
  unfold yearly_summary, analyze_monthly_trends. rewrite !summary_keys.
  split; [|split; [|split]].
  - eapply StronglySorted_weaken.
    2: exact (group_keys_sorted Z.compare Z.compare_eq_iff Z_compare_antisym
                Z_compare_trans (map t_year df)).
    intros a b H. now apply Z.compare_lt_iff.
  - intros y. rewrite (group_keys_In Z.compare Z.compare_eq_iff), in_map_iff.
    split; intros (t & H1 & H2); exists t; auto.
  - eapply StronglySorted_weaken.
    2: exact (group_keys_sorted period_compare period_compare_eq
                period_compare_antisym period_compare_trans (map year_month df)).
    intros a b H. now apply period_compare_lt.
  - intros p. rewrite (group_keys_In period_compare period_compare_eq), in_map_iff.
    split; intros (t & H1 & H2); exists t; auto.
Qed.

Lemma growth_lines_length (s : list (bucket Z)) :
  List.length (growth_lines s) = (List.length s - 1)%nat.
Proof.
  induction s as [|a [|b r] IH]; simpl in *; try reflexivity.
  rewrite IH. lia.
Qed.

Lemma growth_lines_nth (s : list (bucket Z)) (i : nat) (prev curr : bucket Z) :
  nth_error s i = Some prev -> nth_error s (S i) = Some curr ->
  nth_error (growth_lines s) i
  = Some {| g_prev_year := b_key prev;
            g_curr_year := b_key curr;
            g_income_growth := growth (b_income curr) (b_income prev);
            g_expense_growth := growth (b_expense curr) (b_expense prev) |}.
Proof.
  revert i. induction s as [|a [|b r] IH]; intros i Hp Hc.
  - destruct i; discriminate.
  - destruct i as [|[|i]]; discriminate.
  - destruct i as [|i].
    + simpl in Hp, Hc. injection Hp as <-. injection Hc as <-. reflexivity.
    + change (nth_error (growth_lines (b :: r)) i = Some
                {| g_prev_year := b_key prev;
                   g_curr_year := b_key curr;
                   g_income_growth := growth (b_income curr) (b_income prev);
                   g_expense_growth := growth (b_expense curr) (b_expense prev) |}).
      apply IH; assumption.
Qed.

(** The growth analysis prints one line for every pair of consecutive
    rows of the yearly summary, in order, so one line fewer than there are
    years and none for a table of a single year or of no row; the line of
    position [i] compares the year of position [i + 1] with the year of
    position [i]. *)
Theorem growth_lines_pair_consecutive_years (df : list txn) :
  List.length (snd (analyze_yearly_trends df))
  = (List.length (fst (analyze_yearly_trends df)) - 1)%nat
  /\ forall i prev curr,
       nth_error (fst (analyze_yearly_trends df)) i = Some prev ->
       nth_error (fst (analyze_yearly_trends df)) (S i) = Some curr ->
       nth_error (snd (analyze_yearly_trends df)) i
       = Some {| g_prev_year := b_key prev;
                 g_curr_year := b_key curr;
                 g_income_growth := growth (b_income curr) (b_income prev);
                 g_expense_growth := growth (b_expense curr) (b_expense prev) |}.
Proof.
  simpl. split; [apply growth_lines_length | apply growth_lines_nth].
Qed.

Lemma growth_lines_pair_consecutive_years_witness :
  exists prev curr line,
    nth_error (fst (analyze_yearly_trends
                      (Examples.cleaned [Examples.expense_2023; Examples.income_2024])))
              0 = Some prev
    /\ nth_error (fst (analyze_yearly_trends
                         (Examples.cleaned [Examples.expense_2023; Examples.income_2024])))
                 1 = Some curr
    /\ nth_error (snd (analyze_yearly_trends
                         (Examples.cleaned [Examples.expense_2023; Examples.income_2024])))
                 0 = Some line
    /\ g_prev_year line = 2023%Z /\ g_curr_year line = 2024%Z.
Proof.
  eexists. eexists. eexists.
  split; [vm_compute; reflexivity|]. split; [vm_compute; reflexivity|].
  split.
  - apply (growth_lines_pair_consecutive_years
             (Examples.cleaned [Examples.expense_2023; Examples.income_2024]));
      vm_compute; reflexivity.
  - split; reflexivity.
Defined.

Lemma cents_spec (x : fval) :
  cents x = true -> x = Fin (qv x) /\ exists k : Z, qv x * 100 == inject_Z k.
Proof.
  destruct x as [q| | |]; simpl; try discriminate.
  intros H. split; [reflexivity | now apply whole_cents_spec].
Qed.

Lemma whole_cents_complete (q : Q) :
  (exists k : Z, q * 100 == inject_Z k) -> whole_cents q = true.
Proof.
  intros [k Hk]. destruct q as [n d]. unfold whole_cents. apply Z.eqb_eq.
  unfold Qeq, Qmult, inject_Z in Hk. cbn [Qnum Qden] in *.
  rewrite Pos.mul_1_r, Z.mul_1_r in Hk. rewrite Hk.
  apply Z.mod_mul. discriminate.
Qed.

Lemma cents_finite (x : fval) : cents x = true -> finite x = true.
Proof. destruct x; simpl; try discriminate; reflexivity. Qed.

(** The sum of a column of whole cents, rounded to 2 decimals, is the
    sum. *)
Lemma rounded_sum_cents (col : txn -> fval) (l : list txn) :
  (forall t, In t l -> cents (col t) = true) ->
  exists s, F.round 2 (F.sum (map col l)) = Fin s
            /\ s == Qsum (map (fun t => qv (col t)) l).
Proof.
  intros H.
  rewrite (sum_finite_col col l (fun t Ht => cents_finite _ (H t Ht))).
  eexists. split; [reflexivity|].
  assert (E : fold_left Qplus (map (fun t => qv (col t)) l) 0
              == Qsum (map (fun t => qv (col t)) l))
    by (rewrite fold_left_Qplus; ring).
  rewrite round_dec_cents; [exact E|].
  destruct (cents_Qsum (fun t => qv (col t)) l) as [k Hk].
  - intros t Ht. apply (cents_spec _ (H t Ht)).
  - exists k. rewrite E. exact Hk.
Qed.

Section GroupTotals.

Context {K : Type}.
Variable cmp : K -> K -> comparison.
Hypothesis cmp_eq : forall a b, cmp a b = Eq <-> a = b.
Variable key : txn -> K.
Variable col : txn -> fval.

(** The rounded sums of the groups of a column of whole cents add up to
    the sum of the column. *)
Lemma group_sums_total (df : list txn) :
  (forall t, In t df -> cents (col t) = true) ->
  F.eqv (F.sum (map (fun g => F.round 2 (F.sum (map col (snd g))))
                    (groupby cmp key df)))
        (F.sum (map col df)).
Proof.
  intros H. set (f := fun t => qv (col t)).
  assert (Hg : forall g, In g (groupby cmp key df) ->
                 exists s, F.round 2 (F.sum (map col (snd g))) = Fin s
                           /\ s == Qsum (map f (snd g))).
  { intros g Hin. apply rounded_sum_cents. intros t Ht. apply H.
    exact (groupby_In cmp key df g t Hin Ht). }
  rewrite (sum_finite_col col df (fun t Ht => cents_finite _ (H t Ht))).
  rewrite sum_finite.
  2:{ apply Forall_forall. intros x Hx. apply in_map_iff in Hx.
      destruct Hx as (g & <- & Hin). destruct (Hg g Hin) as (s & -> & _).
      reflexivity. }
  cbn [F.eqv]. rewrite map_map.
  transitivity (Qsum (map f df));
    [|symmetry; etransitivity; [apply fold_left_Qplus | apply Qplus_0_l]].
  etransitivity; [apply fold_left_Qplus|]. rewrite Qplus_0_l.
  rewrite <- (Qsum_groupby cmp cmp_eq key f df).
  apply Qsum_ext. intros g Hin. destruct (Hg g Hin) as (s & -> & Hs). exact Hs.
Qed.

End GroupTotals.

Lemma summarize_columns {K : Type} (l : list (K * list txn)) :
  map b_income (map summarize l)
  = map (fun g => F.round 2 (F.sum (map t_income (snd g)))) l
  /\ map b_expense (map summarize l)
     = map (fun g => F.round 2 (F.sum (map t_expense (snd g)))) l.
Proof. rewrite !map_map. split; reflexivity. Qed.

(** Over a table whose amounts are finite whole numbers of cents, of
    either sign, the incomes of the months add up to the total income of
    the overall summary, and so do the incomes of the years; likewise for
    the expenses. *)
Theorem period_sums_partition_totals (df : list txn) :
  forallb (fun t => cents (t_income t) && cents (t_expense t)) df = true ->
  F.eqv (F.sum (map b_income (analyze_monthly_trends df)))
        (total_income (analyze_overall_summary df))
  /\ F.eqv (F.sum (map b_expense (analyze_monthly_trends df)))
           (total_expense (analyze_overall_summary df))
  /\ F.eqv (F.sum (map b_income (yearly_summary df)))
           (total_income (analyze_overall_summary df))
  /\ F.eqv (F.sum (map b_expense (yearly_summary df)))
           (total_expense (analyze_overall_summary df)).
Proof.
  intros H. rewrite forallb_forall in H.
  assert (Hi : forall t, In t df -> cents (t_income t) = true)
    by (intros t Ht; apply H in Ht; now apply andb_prop in Ht).
  assert (He : forall t, In t df -> cents (t_expense t) = true)
    by (intros t Ht; apply H in Ht; now apply andb_prop in Ht).
  unfold analyze_monthly_trends, yearly_summary. simpl.
  destruct (summarize_columns (groupby period_compare year_month df)) as [-> ->].
  destruct (summarize_columns (groupby Z.compare t_year df)) as [-> ->].
  repeat split.
  - exact (group_sums_total period_compare period_compare_eq year_month t_income df Hi).
  - exact (group_sums_total period_compare period_compare_eq year_month t_expense df He).
  - exact (group_sums_total Z.compare Z.compare_eq_iff t_year t_income df Hi).
  - exact (group_sums_total Z.compare Z.compare_eq_iff t_year t_expense df He).
Qed.

Lemma period_sums_partition_totals_witness :
  forallb (fun t => cents (t_income t) && cents (t_expense t))
          (Examples.cleaned Examples.shopping) = true
  /\ F.eqv (F.sum (map b_expense (analyze_monthly_trends
                                    (Examples.cleaned Examples.shopping))))
           (Fin (121975 # 100)).
Proof.
  split; [vm_compute; reflexivity|].
  destruct (period_sums_partition_totals (Examples.cleaned Examples.shopping)
              ltac:(vm_compute; reflexivity)) as (_ & He & _).
  destruct (F.sum (map b_expense (analyze_monthly_trends
                                    (Examples.cleaned Examples.shopping))))
    as [q| | |] eqn:E; try contradiction.
  simpl in He |- *. rewrite He. vm_compute. reflexivity.
Defined.

(** In the monthly and the yearly summary of a cleaned table whose amounts
    are finite whole numbers of cents, the net amount of every row is its
    income minus its expense. *)
Theorem bucket_net_is_income_minus_expense (to_numeric : string -> fval)
    (to_datetime : string -> option (Z * Z * Z)) (raw : list raw_row)
    (df : list txn) (rep : clean_report) :
  clean_and_preprocess_data to_numeric to_datetime raw = Some (df, rep) ->
  forallb (fun t => cents (t_income t) && cents (t_expense t)) df = true ->
  (forall b, In b (analyze_monthly_trends df) ->
     F.eqv (b_net b) (F.sub (b_income b) (b_expense b)))
  /\ (forall b, In b (yearly_summary df) ->
        F.eqv (b_net b) (F.sub (b_income b) (b_expense b))).
Proof.
  intros Hrun H. pose proof (clean_data_rows _ _ _ _ _ Hrun) as Hrows.
  rewrite forallb_forall in H.
  assert (Hi : forall t, In t df -> cents (t_income t) = true)
    by (intros t Ht; apply H in Ht; now apply andb_prop in Ht).
  assert (He : forall t, In t df -> cents (t_expense t) = true)
    by (intros t Ht; apply H in Ht; now apply andb_prop in Ht).
  assert (Hn : forall t, In t df ->
                 t_net t = Fin (qv (t_income t) + - qv (t_expense t))).
  { intros t Ht. destruct (clean_rows_In _ _ _ _ _ Hrows Ht) as (r & _ & Hc).
    destruct (clean_row_type _ _ _ _ Hc) as (_ & _ & _ & Hnet & _).
    rewrite Hnet, (proj1 (cents_spec _ (Hi t Ht))), (proj1 (cents_spec _ (He t Ht))).
    reflexivity. }
  assert (Hc : forall t, In t df -> cents (t_net t) = true).
  { intros t Ht. rewrite (Hn t Ht). simpl.
    destruct (cents_spec _ (Hi t Ht)) as (_ & a & Ha).
    destruct (cents_spec _ (He t Ht)) as (_ & b & Hb).
    apply whole_cents_complete. exists (a - b)%Z.
    unfold Z.sub. rewrite inject_Z_plus, inject_Z_opp, <- Ha, <- Hb. ring. }
  assert (Hgen : forall (K : Type) (g : K * list txn),
             (forall t, In t (snd g) -> In t df) ->
             F.eqv (b_net (summarize g))
                   (F.sub (b_income (summarize g)) (b_expense (summarize g)))).
  { intros K g Hsub. simpl.
    destruct (rounded_sum_cents t_income (snd g) (fun t Ht => Hi t (Hsub t Ht)))
      as (si & -> & Hsi).
    destruct (rounded_sum_cents t_expense (snd g) (fun t Ht => He t (Hsub t Ht)))
      as (se & -> & Hse).
    destruct (rounded_sum_cents t_net (snd g) (fun t Ht => Hc t (Hsub t Ht)))
      as (sn & -> & Hsn).
    cbn [F.sub F.neg F.add F.eqv]. rewrite Hsn, Hsi, Hse.
    rewrite <- (Qsum_minus (fun t => qv (t_income t)) (fun t => qv (t_expense t))).
    apply Qsum_ext. intros t Ht. rewrite (Hn t (Hsub t Ht)). reflexivity. }
  split; intros b Hb; apply in_map_iff in Hb; destruct Hb as (g & <- & Hg);
    apply Hgen; intros t Ht.
  - exact (groupby_In period_compare year_month df g t Hg Ht).
  - exact (groupby_In Z.compare t_year df g t Hg Ht).
Qed.

Lemma bucket_net_is_income_minus_expense_witness :
  exists df rep b,
    clean_and_preprocess_data Instances.decimal_to_numeric Instances.iso_to_datetime
      Examples.shopping = Some (df, rep)
    /\ In b (analyze_monthly_trends df)
    /\ b_key b = (2024, 3)%Z
    /\ F.eqv (b_net b) (F.sub (b_income b) (b_expense b)).
Proof.
  eexists. eexists. eexists.
  split; [vm_compute; reflexivity|].
  split; [vm_compute; left; reflexivity|]. split; [reflexivity|].
  match goal with
  | |- F.eqv (b_net ?b) _ =>
      apply (bucket_net_is_income_minus_expense Instances.decimal_to_numeric
               Instances.iso_to_datetime Examples.shopping _ _
               ltac:(vm_compute; reflexivity) ltac:(vm_compute; reflexivity))
  end.
  vm_compute. left. reflexivity.
Defined.

(** *** Counting the rows of the groups *)

Section GroupCounts.

Context {K R : Type}.
Variable cmp : K -> K -> comparison.
Hypothesis cmp_eq : forall a b, cmp a b = Eq <-> a = b.
Variable key : R -> K.

Lemma count_pick_absent (a : K) (ks : list K) :
  ~ In a ks ->
  list_sum (map (fun k => if key_eqb cmp a k then 1 else 0)%nat ks) = 0%nat.
Proof.
  induction ks as [|k ks IH]; simpl; intros H; [reflexivity|].
  destruct (key_eqb cmp a k) eqn:E.
  - exfalso. apply H. left. symmetry. now apply (key_eqb_eq cmp cmp_eq).
  - simpl. apply IH. tauto.
Qed.

Lemma count_pick (a : K) (ks : list K) :
  NoDup ks -> In a ks ->
  list_sum (map (fun k => if key_eqb cmp a k then 1 else 0)%nat ks) = 1%nat.
Proof.
  induction 1 as [|k ks Hk Hnd IH]; simpl; [tauto|].
  intros [-> | Hin].
  - assert (T : key_eqb cmp a a = true) by now apply (key_eqb_eq cmp cmp_eq).
    rewrite T, (count_pick_absent a ks Hk). reflexivity.
  - destruct (key_eqb cmp a k) eqn:E.
    + apply (key_eqb_eq cmp cmp_eq) in E. subst. contradiction.
    + simpl. apply IH, Hin.
Qed.

Lemma list_sum_plus {A : Type} (f g : A -> nat) (l : list A) :
  list_sum (map (fun x => f x + g x)%nat l)
  = (list_sum (map f l) + list_sum (map g l))%nat.
Proof. induction l as [|x l IH]; simpl; [reflexivity|]. rewrite IH. lia. Qed.

Lemma group_sizes (ks : list K) (df : list R) :
  NoDup ks -> (forall t, In t df -> In (key t) ks) ->
  list_sum (map (fun k => List.length (filter (fun t => key_eqb cmp (key t) k) df)) ks)
  = List.length df.
Proof.
  intros Hnd. induction df as [|t df IH]; intros Hcov.
  - simpl. clear. induction ks as [|k ks IHk]; simpl; [reflexivity | exact IHk].
  - transitivity
      (list_sum (map (fun k =>
                   (if key_eqb cmp (key t) k then 1 else 0)
                   + List.length (filter (fun t => key_eqb cmp (key t) k) df))%nat
                 ks)).
    + f_equal. apply map_ext. intros k. simpl.
      destruct (key_eqb cmp (key t) k); reflexivity.
    + rewrite list_sum_plus, IH by (intros u Hu; apply Hcov; now right).
      rewrite (count_pick (key t) ks Hnd (Hcov t (or_introl eq_refl))).
      reflexivity.
Qed.

(** The sizes of the groups add up to the number of rows. *)
Lemma groupby_sizes (df : list R) :
  list_sum (map (fun g => List.length (snd g)) (groupby cmp key df))
  = List.length df.
Proof.
  unfold groupby. rewrite map_map. simpl. apply group_sizes.
  - apply (group_keys_NoDup cmp cmp_eq).
  - intros t Ht. apply (group_keys_In cmp cmp_eq). now apply in_map.
Qed.

(** No group is empty. *)
Lemma groupby_nonempty (df : list R) (g : K * list R) :
  In g (groupby cmp key df) -> snd g <> [].
Proof.
  unfold groupby. intros Hg. apply in_map_iff in Hg.
  destruct Hg as (k & <- & Hk). simpl.
  apply (proj1 (group_keys_In cmp cmp_eq _ _)) in Hk. apply in_map_iff in Hk.
  destruct Hk as (t & <- & Ht). intros E.
  assert (Hin : In t (filter (fun u => key_eqb cmp (key u) (key t)) df)).
  { apply filter_In. split; [exact Ht|]. now apply (key_eqb_eq cmp cmp_eq). }
  rewrite E in Hin. contradiction.
Qed.

End GroupCounts.

Lemma category_table_columns (col : txn -> fval) (df : list txn) :
  map c_count (category_table col df)
  = map (fun g => List.length (snd g)) (category_groups col df)
  /\ map c_category (category_table col df) = map fst (category_groups col df).
Proof. unfold category_table. rewrite !map_map. split; reflexivity. Qed.

Lemma StronglySorted_lt_NoDup {A : Type} (R : A -> A -> Prop) (l : list A) :
  (forall a, ~ R a a) -> StronglySorted R l -> NoDup l.
Proof.
  intros Hirr. induction 1 as [|a l Hl IH Ha]; constructor; [|exact IH].
  intros Hin. rewrite Forall_forall in Ha. exact (Hirr a (Ha a Hin)).
Qed.

(** The transaction counts of the expense category table add up to the
    number of expense transactions of the overall summary, those of the
    income table to the number of income transactions; every category is
    listed once and with at least one transaction. *)
Theorem category_counts_partition (df : list txn) :
  list_sum (map c_count (fst (analyze_categories df)))
  = income_transactions (analyze_overall_summary df)
  /\ list_sum (map c_count (snd (analyze_categories df)))
     = expense_transactions (analyze_overall_summary df)
  /\ (forall b, In b (fst (analyze_categories df)) \/ In b (snd (analyze_categories df)) ->
        (1 <= c_count b)%nat)
  /\ NoDup (map c_category (fst (analyze_categories df)))
  /\ NoDup (map c_category (snd (analyze_categories df))).
Proof.
  assert (Hcount : forall col,
             list_sum (map c_count (category_table col df)) = count_positive col df).
  { intros col. rewrite (proj1 (category_table_columns col df)).
    unfold category_groups, count_positive.
    apply (groupby_sizes String.compare string_compare_eq). }
  assert (Hone : forall col b, In b (category_table col df) -> (1 <= c_count b)%nat).
  { intros col b Hb. unfold category_table in Hb. apply in_map_iff in Hb.
    destruct Hb as (g & <- & Hg). simpl.
    pose proof (groupby_nonempty String.compare string_compare_eq _ _ g Hg) as Hne.
    destruct (snd g); [congruence | simpl; lia]. }
  assert (Hnd : forall col, NoDup (map c_category (category_table col df))).
  { intros col. rewrite (proj2 (category_table_columns col df)).
    unfold category_groups. rewrite groupby_keys.
    apply (group_keys_NoDup String.compare string_compare_eq). }
  simpl. split; [apply Hcount|]. split; [apply Hcount|].
  split; [|split; apply Hnd].
  intros b [Hb | Hb]; eapply Hone; exact Hb.
Qed.

(** ** Counterparties *)

(** The counterparty table drops the rows without a counterparty name: its
    transaction counts add up to the number of rows with a positive amount
    and a name, so together with the rows with a positive amount and no
    name they make up the transactions of the overall summary. *)
Theorem counterparty_counts_skip_missing_names (df : list txn) :
  (list_sum (map snd (counterparty_table t_income df))
   + List.length (filter (fun t => F.gt (t_income t) F.zero && negb (notna (t_party t))) df)
   = income_transactions (analyze_overall_summary df))%nat
  /\ (list_sum (map snd (counterparty_table t_expense df))
      + List.length (filter (fun t => F.gt (t_expense t) F.zero && negb (notna (t_party t))) df)
      = expense_transactions (analyze_overall_summary df))%nat
  /\ forall name total n,
       In (name, total, n) (counterparty_table t_income df)
       \/ In (name, total, n) (counterparty_table t_expense df) ->
       exists t, In t df /\ t_party t = Some name.
Proof.
  assert (Hsplit : forall (f g : txn -> bool) (l : list txn),
             (List.length (filter g (filter f l))
              + List.length (filter (fun t => f t && negb (g t)) l)
              = List.length (filter f l))%nat).
  { intros f g l. induction l as [|t l IH]; simpl; [reflexivity|].
    destruct (f t); simpl; [|exact IH].
    destruct (g t); simpl; lia. }
  assert (Hcount : forall col,
             list_sum (map snd (counterparty_table col df))
             = List.length (filter (fun t => notna (t_party t))
                                   (filter (fun t => F.gt (col t) F.zero) df))).
  { intros col. unfold counterparty_table. rewrite map_map. simpl.
    apply (groupby_sizes String.compare string_compare_eq). }
  assert (Hname : forall col name total n,
             In (name, total, n) (counterparty_table col df) ->
             exists t, In t df /\ t_party t = Some name).
  { intros col name total n Hin. unfold counterparty_table in Hin.
    apply in_map_iff in Hin. destruct Hin as (g & Hg & Hin).
    injection Hg as Hname _ _.
    assert (Hk : In name (map fst (groupby String.compare party_key
                   (filter (fun t => notna (t_party t))
                           (filter (fun t => F.gt (col t) F.zero) df)))))
      by (rewrite <- Hname; now apply in_map).
    rewrite groupby_keys in Hk.
    apply (proj1 (group_keys_In String.compare string_compare_eq _ _)) in Hk.
    apply in_map_iff in Hk. destruct Hk as (t & Hkey & Ht).
    apply filter_In in Ht. destruct Ht as [Ht Hna].
    apply filter_In in Ht. destruct Ht as [Ht _].
    exists t. split; [exact Ht|]. unfold party_key in Hkey.
    destruct (t_party t); [congruence | discriminate]. }
  simpl. unfold count_positive. rewrite !Hcount.
  split; [apply Hsplit|]. split; [apply Hsplit|].
  intros name total n [H | H]; eapply Hname; exact H.
Qed.

(** ** Automatic categories of rows without a match *)



(** ** Top transactions *)

Lemma gt_asym (x y : fval) : F.gt x y = true -> F.gt y x = false.
Proof.
  destruct x as [a| | |], y as [b| | |]; simpl; try reflexivity; try discriminate.
  rewrite <- (Qcompare_antisym a b). destruct (a ?= b)%Q; simpl; congruence.
Qed.

Lemma not_gt_trans (x y z : fval) :
  F.isna y = false ->
  F.gt y x = false -> F.gt z y = false -> F.gt z x = false.
Proof.
  destruct x as [a| | |], y as [b| | |], z as [c| | |]; simpl;
    intros Hn Hba Hcb; try reflexivity; try discriminate.
  assert (Lba : b <= a).
  { apply Qle_alt. intros G. rewrite G in Hba. discriminate. }
  assert (Lcb : c <= b).
  { apply Qle_alt. intros G. rewrite G in Hcb. discriminate. }
  pose proof (proj1 (Qle_alt _ _) (Qle_trans _ _ _ Lcb Lba)) as L.
  destruct (c ?= a)%Q eqn:C; congruence.
Qed.

Lemma firstn_incl {A : Type} (n : nat) (l : list A) (x : A) :
  In x (firstn n l) -> In x l.
Proof.
  intros H. rewrite <- (firstn_skipn n l). apply in_or_app. now left.
Qed.

Lemma skipn_incl {A : Type} (n : nat) (l : list A) (x : A) :
  In x (skipn n l) -> In x l.
Proof.
  intros H. rewrite <- (firstn_skipn n l). apply in_or_app. now right.
Qed.

Section SelectNFacts.

Context {R : Type}.
Variable col : R -> fval.

Lemma insert_desc_perm (x : R) (l : list R) :
  Permutation (insert_desc col x l) (x :: l).
Proof.
  induction l as [|h r IH]; simpl; [reflexivity|].
  destruct (F.gt (col h) (col x)); [|reflexivity].
  rewrite IH. apply perm_swap.
Qed.

Lemma sort_desc_perm (l : list R) : Permutation (sort_desc col l) l.
Proof.
  induction l as [|x l IH]; simpl; [reflexivity|].
  rewrite insert_desc_perm. now apply perm_skip.
Qed.

Lemma insert_desc_sorted (x : R) (l : list R) :
  Forall (fun y => F.isna (col y) = false) l ->
  StronglySorted (not_less col) l -> StronglySorted (not_less col) (insert_desc col x l).
Proof.
  intros Hna Hs. induction Hs as [|h r Hr IH Hh]; simpl.
  - constructor; constructor.
  - inversion Hna as [|? ? Hnh Hnr]; subst.
    destruct (F.gt (col h) (col x)) eqn:G.
    + constructor; [apply IH, Hnr|].
      rewrite Forall_forall in *. intros y Hy.
      apply (Permutation_in _ (insert_desc_perm x r)) in Hy.
      destruct Hy as [<- | Hy]; [|now apply Hh].
      unfold not_less. now apply gt_asym.
    + constructor; [now constructor|]. constructor; [exact G|].
      rewrite Forall_forall in *. intros y Hy. unfold not_less.
      apply (not_gt_trans (col x) (col h) (col y) Hnh G). now apply Hh.
Qed.

Lemma sort_desc_sorted (l : list R) :
  Forall (fun y => F.isna (col y) = false) l ->
  StronglySorted (not_less col) (sort_desc col l).
Proof.
  induction 1 as [|x l Hx Hl IH]; simpl; [constructor|].
  apply insert_desc_sorted; [|exact IH].
  rewrite Forall_forall in *. intros y Hy. apply Hl.
  exact (Permutation_in _ (sort_desc_perm l) Hy).
Qed.

Lemma sorted_firstn_skipn (n : nat) (l : list R) :
  StronglySorted (not_less col) l ->
  StronglySorted (not_less col) (firstn n l)
  /\ forall a b, In a (firstn n l) -> In b (skipn n l) -> (not_less col) a b.
Proof.
  intros Hs. revert n. induction Hs as [|h r Hr IH Hh]; intros n.
  - rewrite firstn_nil, skipn_nil. split; [constructor | intros ? ? []].
  - destruct n as [|n]; simpl.
    + split; [constructor | intros ? ? []].
    + destruct (IH n) as [IH1 IH2]. rewrite Forall_forall in Hh. split.
      * constructor; [exact IH1|]. apply Forall_forall. intros y Hy.
        apply Hh. exact (firstn_incl _ _ _ Hy).
      * intros a b [<- | Ha] Hb; [|now apply IH2].
        apply Hh. exact (skipn_incl _ _ _ Hb).
Qed.

End SelectNFacts.

Lemma filter_notna_positive (col : txn -> fval) (df : list txn) :
  filter (fun x => negb (F.isna (col x))) (filter (fun t => F.gt (col t) F.zero) df)
  = filter (fun t => F.gt (col t) F.zero) df.
Proof.
  induction df as [|t df IH]; simpl; [reflexivity|].
  destruct (F.gt (col t) F.zero) eqn:G; [|exact IH].
  simpl. assert (N : F.isna (col t) = false) by (destruct (col t); try reflexivity; discriminate).
  rewrite N. simpl. f_equal. exact IH.
Qed.

(** The top table of a column has [n] rows, or as many as there are
    transactions with a positive amount when these are fewer, and none for
    [n <= 0]; its rows are rows of the table with a positive amount, in
    order of decreasing amount, and no transaction left out has a greater
    amount than one of them. *)
Theorem top_rows_are_the_largest (col : txn -> fval) (n : Z) (df : list txn) :
  List.length (top_table col n df) = Nat.min (Z.to_nat n) (count_positive col df)
  /\ (forall t, In t (top_rows col n df) ->
        In t df /\ F.gt (col t) F.zero = true)
  /\ StronglySorted (fun a b => F.gt (col b) (col a) = false) (top_rows col n df)
  /\ exists rest,
       Permutation (top_rows col n df ++ rest)
                   (filter (fun t => F.gt (col t) F.zero) df)
       /\ forall a b, In a (top_rows col n df) -> In b rest ->
                      F.gt (col b) (col a) = false.
Proof.
  unfold top_table, top_rows, nlargest, count_positive.
  rewrite filter_notna_positive.
  set (pos := filter (fun t => F.gt (col t) F.zero) df).
  assert (Hna : Forall (fun y => F.isna (col y) = false) pos).
  { apply Forall_forall. intros t Ht. apply filter_In in Ht.
    destruct Ht as [_ G]. destruct (col t); try reflexivity; discriminate. }
  pose proof (sort_desc_sorted col pos Hna) as Hs.
  pose proof (sort_desc_perm col pos) as Hp.
  destruct (sorted_firstn_skipn col (Z.to_nat n) _ Hs) as [H1 H2].
  split; [|split; [|split]].
  - rewrite length_map, length_firstn, (Permutation_length Hp). reflexivity.
  - intros t Ht. apply firstn_incl in Ht.
    apply (Permutation_in _ Hp) in Ht. now apply filter_In in Ht.
  - exact H1.
  - exists (skipn (Z.to_nat n) (sort_desc col pos)). split; [|exact H2].
    rewrite firstn_skipn. exact Hp.
Qed.

(** ** The expense pie *)

Lemma Qsum_app (a b : list Q) : Qsum (a ++ b) == Qsum a + Qsum b.
Proof. induction a as [|x a IH]; simpl; [ring|]. rewrite IH. ring. Qed.

(** The pie never has more than 8 slices; a series of at most 8 categories
    is drawn as it is, a longer one keeps its first 7 categories and ends
    with the slice ['其他']; and for finite values the slices add up to the
    sum of the series, so no expense is lost from the chart. *)
Theorem pie_data_keeps_the_total (s : list (string * fval)) :
  (List.length (pie_data s) <= 8)%nat
  /\ ((List.length s <= 8)%nat -> pie_data s = s)
  /\ ((8 < List.length s)%nat ->
      firstn 7 (pie_data s) = firstn 7 s
      /\ map fst (skipn 7 (pie_data s)) = [other])
  /\ (forallb (fun x => finite (snd x)) s = true ->
      F.eqv (F.sum (map snd (pie_data s))) (F.sum (map snd s))).
Proof.
  unfold pie_data. destruct (8 <? List.length s)%nat eqn:L.
  - apply Nat.ltb_lt in L.
    assert (L7 : List.length (firstn 7 s) = 7%nat)
      by (rewrite length_firstn; lia).
    assert (Es : s = firstn 7 s ++ skipn 7 s) by (symmetry; apply firstn_skipn).
    remember (firstn 7 s) as f7 eqn:Ef. remember (skipn 7 s) as r7 eqn:Er.
    clear Ef Er.
    split; [rewrite length_app, L7; simpl; lia|].
    split; [intros H; lia|]. split.
    + intros _. split.
      * rewrite firstn_app, L7, Nat.sub_diag, firstn_0, app_nil_r.
        apply firstn_all2. lia.
      * rewrite skipn_app, L7, Nat.sub_diag, skipn_0.
        rewrite (skipn_all2 f7) by (rewrite L7; lia). reflexivity.
    + intros Hfin. rewrite forallb_forall in Hfin.
      assert (Hall : forall l, (forall x, In x l -> In x s) ->
                       F.sum (map snd l)
                       = Fin (fold_left Qplus (map (fun x => qv (snd x)) l) 0)).
      { intros l Hl. rewrite sum_finite; [now rewrite map_map|].
        apply Forall_forall. intros v Hv. apply in_map_iff in Hv.
        destruct Hv as (x & <- & Hx). apply finite_spec, Hfin, Hl, Hx. }
      assert (Hf : forall x, In x f7 -> In x s)
        by (intros x Hx; rewrite Es; apply in_or_app; now left).
      assert (Hr : forall x, In x r7 -> In x s)
        by (intros x Hx; rewrite Es; apply in_or_app; now right).
      rewrite (Hall r7 Hr), (Hall s (fun x Hx => Hx)).
      rewrite sum_finite.
      2:{ apply Forall_forall. intros v Hv. apply in_map_iff in Hv.
          destruct Hv as (x & <- & Hx). apply in_app_or in Hx.
          destruct Hx as [Hx | [<- | []]]; [|reflexivity].
          apply finite_spec, Hfin, Hf, Hx. }
      cbn [F.eqv].
      transitivity (Qsum (map (fun x => qv (snd x)) s));
        [|symmetry; etransitivity; [apply fold_left_Qplus | apply Qplus_0_l]].
      etransitivity; [apply fold_left_Qplus|].
      rewrite Qplus_0_l, map_map, map_app, Qsum_app.
      rewrite Es at 1. rewrite map_app, Qsum_app.
      apply Qplus_comp; [reflexivity|].
      cbn [map Qsum fold_right snd qv].
      etransitivity; [apply Qplus_0_r|].
      etransitivity; [apply fold_left_Qplus | apply Qplus_0_l].
  - apply Nat.ltb_ge in L.
    split; [exact L|]. split; [reflexivity|]. split; [intros H; lia|].
    intros _. destruct (F.sum (map snd s)); simpl; auto. reflexivity.
Qed.

Lemma pie_data_keeps_the_total_witness :
  (8 < List.length Samples.nine_slices)%nat
  /\ forallb (fun x => finite (snd x)) Samples.nine_slices = true
  /\ map fst (skipn 7 (pie_data Samples.nine_slices)) = [other]
  /\ F.eqv (F.sum (map snd (pie_data Samples.nine_slices)))
           (F.sum (map snd Samples.nine_slices)).
Proof.
  destruct (pie_data_keeps_the_total Samples.nine_slices) as (_ & _ & Hlong & Hsum).
  assert (L : (8 < List.length Samples.nine_slices)%nat) by (simpl; lia).
  split; [exact L|]. split; [reflexivity|].
  split; [exact (proj2 (Hlong L)) | apply Hsum; reflexivity].
Defined.

(** ** The labels of the monthly pattern *)

Lemma enumerate_from_nth {A : Type} (l : list A) (i k : nat) :
  nth_error (enumerate_from i l) k
  = option_map (fun x => ((i + k)%nat, x)) (nth_error l k).
Proof.
  revert i k. induction l as [|x l IH]; intros i k.
  - destruct k; reflexivity.
  - destruct k as [|k]; simpl.
    + rewrite Nat.add_0_r. reflexivity.
    + rewrite IH. replace (S i + k)%nat with (i + S k)%nat by lia. reflexivity.
Qed.

Lemma month_lines_nth (df : list txn) (k : nat) (lab : option string) (m : Z) :
  nth_error (month_lines df) k = Some (lab, m) ->
  nth_error (group_keys Z.compare (map t_month df)) k = Some m
  /\ lab = nth_error month_names k.
Proof.
  unfold month_lines, monthly_pattern.
  rewrite nth_error_map, enumerate_from_nth, nth_error_map.
  rewrite <- (groupby_keys Z.compare t_month df), nth_error_map.
  destruct (nth_error (groupby Z.compare t_month df) k) as [g|]; simpl;
    [|discriminate].
  intros H. injection H as <- <-. split; reflexivity.
Qed.

(** In a strictly increasing list of integers that are at least [lo], the
    entry of position [k] is at least [lo + k], with equality exactly when
    every integer from [lo] up to it is in the list. *)
Lemma sorted_position (keys : list Z) :
  StronglySorted Z.lt keys ->
  forall lo k m,
    (forall x, In x keys -> lo <= x)%Z ->
    nth_error keys k = Some m ->
    (lo + Z.of_nat k <= m)%Z
    /\ (m = lo + Z.of_nat k <-> forall j, lo <= j < m -> In j keys)%Z.
Proof.
  induction 1 as [|h r Hr IH Hh]; intros lo k m Hlo Hk.
  - destruct k; discriminate.
  - rewrite Forall_forall in Hh.
    assert (Hh' : (lo <= h)%Z) by (apply Hlo; now left).
    destruct k as [|k]; simpl in Hk.
    + injection Hk as <-. split; [lia|]. split.
      * intros E j Hj. lia.
      * intros Hall. destruct (Z.eq_dec h lo) as [E|N]; [lia|]. exfalso.
        destruct (Hall lo ltac:(lia)) as [E | Hin]; [lia|].
        apply Hh in Hin. lia.
    + destruct (IH (h + 1)%Z k m) as [Hle Hiff];
        [intros x Hx; apply Hh in Hx; lia | exact Hk |].
      split; [lia|]. split.
      * intros E. assert (h = lo) by lia. subst h.
        intros j Hj. destruct (Z.eq_dec j lo) as [-> | N]; [now left|].
        right. apply Hiff; lia.
      * intros Hall.
        assert (E : h = lo).
        { destruct (Z.eq_dec h lo) as [E|N]; [exact E|]. exfalso.
          destruct (Hall lo ltac:(lia)) as [E | Hin]; [lia|].
          apply Hh in Hin. lia. }
        subst h. assert (Hm : (m = lo + 1 + Z.of_nat k)%Z).
        { apply Hiff. intros j Hj. destruct (Hall j ltac:(lia)) as [E | Hin]; [lia|].
          exact Hin. }
        lia.
Qed.

Lemma month_names_NoDup : NoDup month_names.
Proof.
  unfold month_names.
  repeat (constructor; [simpl; intuition discriminate|]). constructor.
Qed.

Lemma month_name_position (k : nat) :
  month_name (Z.of_nat k + 1) = nth_error month_names k.
Proof.
  unfold month_name. replace (Z.to_nat (Z.of_nat k + 1 - 1)) with k by lia.
  destruct (1 <=? Z.of_nat k + 1)%Z eqn:E; [reflexivity|].
  apply Z.leb_gt in E. lia.
Qed.

(** Every line of the monthly pattern is printed under the month name of
    its position, not of its month. As long as the months are calendar
    months the lookup of the name cannot fail, the name printed is never
    that of a later month than the row's, and it is the name of the row's
    own month exactly when every earlier calendar month occurs in the
    table as well. *)
Theorem month_labels_are_positional (df : list txn) (k : nat)
    (lab : option string) (m : Z) :
  (forall t, In t df -> (1 <= t_month t <= 12)%Z) ->
  nth_error (month_lines df) k = Some (lab, m) ->
  lab = month_name (Z.of_nat k + 1)
  /\ (exists name, lab = Some name)
  /\ (Z.of_nat k + 1 <= m <= 12)%Z
  /\ (lab = month_name m <->
      forall j, (1 <= j < m)%Z -> exists t, In t df /\ t_month t = j).
Proof.
  intros Hcal Hline. apply month_lines_nth in Hline. destruct Hline as [Hk ->].
  set (keys := group_keys Z.compare (map t_month df)) in *.
  assert (Hs : StronglySorted Z.lt keys).
  { eapply StronglySorted_weaken.
    2: exact (group_keys_sorted Z.compare Z.compare_eq_iff Z_compare_antisym
                Z_compare_trans (map t_month df)).
    intros a b H. now apply Z.compare_lt_iff. }
  assert (Hin : forall x, In x keys <-> exists t, In t df /\ t_month t = x).
  { intros x. unfold keys.
    rewrite (group_keys_In Z.compare Z.compare_eq_iff), in_map_iff.
    split; intros (t & H1 & H2); exists t; auto. }
  assert (Hrange : forall x, In x keys -> (1 <= x <= 12)%Z).
  { intros x Hx. apply Hin in Hx. destruct Hx as (t & Ht & <-). now apply Hcal. }
  destruct (sorted_position keys Hs 1%Z k m (fun x Hx => proj1 (Hrange x Hx)) Hk)
    as [Hle Hiff].
  pose proof (Hrange m (nth_error_In _ _ Hk)) as Hm.
  assert (Hlen : (k < List.length month_names)%nat) by (simpl; lia).
  split; [symmetry; apply month_name_position|].
  split; [|split; [lia|]].
  - destruct (nth_error month_names k) as [name|] eqn:E; [now exists name|].
    apply nth_error_None in E. lia.
  - transitivity (m = 1 + Z.of_nat k)%Z.
    + split.
      * intros E. unfold month_name in E.
        destruct (1 <=? m)%Z eqn:E2; [|apply Z.leb_gt in E2; lia].
        apply (proj1 (NoDup_nth_error month_names) month_names_NoDup) in E;
          [lia | exact Hlen].
      * intros ->. rewrite <- month_name_position. f_equal. lia.
    + rewrite Hiff. split; intros H j Hj.
      * apply Hin. apply H. lia.
      * apply Hin. apply H. lia.
Qed.

Lemma month_labels_are_positional_witness :
  nth_error (month_lines (Examples.cleaned Samples.incomes)) 0
  = Some (Some "1月", 3%Z)
  /\ Some "1月" = month_name 1
  /\ (1 <= 3 <= 12)%Z.
Proof.
  assert (H : nth_error (month_lines (Examples.cleaned Samples.incomes)) 0
              = Some (Some "1月", 3%Z)) by (vm_compute; reflexivity).
  split; [exact H|].
  destruct (month_labels_are_positional (Examples.cleaned Samples.incomes) 0
              (Some "1月") 3%Z) as (Hlab & _ & Hle & _).
  - intros t Ht. vm_compute in Ht.
    repeat (destruct Ht as [<- | Ht]; [simpl; lia|]). contradiction.
  - exact H.
  - split; [exact Hlab | exact Hle].
Defined.

(** ** The choice of the statement file *)

Section FileChoiceFacts.

Variable py_int : string -> option Z.

Lemma select_loop_result (files : list csv_file) (inputs : list console_event) :
  select_loop py_int files inputs <> IndexError
  /\ forall p, select_loop py_int files inputs = Selected p ->
               exists f, In f files /\ file_path f = p.
Proof.
  induction inputs as [|e rest IH]; simpl.
  - split; [discriminate | intros p H; discriminate H].
  - destruct e as [line|]; [|split; [discriminate | intros p H; discriminate H]].
    destruct (Str.lower (Str.strip line) =? "q");
      [split; [discriminate | intros p H; discriminate H]|].
    destruct (py_int (Str.strip line)) as [n|]; [|exact IH].
    destruct ((1 <=? n) && (n <=? Z.of_nat (List.length files)))%Z eqn:B;
      [|exact IH].
    apply andb_prop in B. destruct B as [B1 B2].
    apply Z.leb_le in B1. apply Z.leb_le in B2.
    destruct (nth_error files (Z.to_nat (n - 1))) as [f|] eqn:E.
    + split; [discriminate|]. intros p H. injection H as <-.
      exists f. split; [exact (nth_error_In _ _ E) | reflexivity].
    + apply nth_error_None in E. lia.
Qed.

Lemma select_loop_asks_again (files : list csv_file)
    (again rest : list console_event) :
  forallb (asks_again py_int files) again = true ->
  select_loop py_int files (again ++ rest) = select_loop py_int files rest.
Proof.
  induction again as [|e again IH]; simpl; intros H; [reflexivity|].
  apply andb_prop in H. destruct H as [He Ha].
  destruct e as [line|]; simpl in He; [|discriminate].
  apply andb_prop in He. destruct He as [Hq Hn].
  apply negb_true_iff in Hq. rewrite Hq.
  destruct (py_int (Str.strip line)) as [n|]; [|exact (IH Ha)].
  apply negb_true_iff in Hn. rewrite Hn. exact (IH Ha).
Qed.

End FileChoiceFacts.

(** Whatever is typed, [select_csv_file] never indexes the list of files
    out of range, and a path it returns is the path of a listed file;
    entries that are no number of a listed file are skipped and the next
    entry decides; an entry that is the number of a listed file selects
    that file. *)
Theorem select_csv_file_stays_in_the_list (py_int : string -> option Z)
    (files : list csv_file) (inputs : list console_event) :
  select_csv_file py_int files inputs <> IndexError
  /\ (forall p, select_csv_file py_int files inputs = Selected p ->
        exists f, In f files /\ file_path f = p)
  /\ (forall again,
        forallb (asks_again py_int files) again = true ->
        select_csv_file py_int files (again ++ inputs)
        = select_csv_file py_int files inputs)
  /\ (forall line n f,
        (Str.lower (Str.strip line) =? "q") = false ->
        py_int (Str.strip line) = Some n ->
        nth_error files (Z.to_nat (n - 1)) = Some f -> (1 <= n)%Z ->
        select_csv_file py_int files (Typed line :: inputs)
        = Selected (file_path f)).
Proof.
  unfold select_csv_file. destruct files as [|f0 files].
  - split; [discriminate|]. split; [intros p H; discriminate H|].
    split; [reflexivity|]. intros line n f _ _ E _.
    destruct (Z.to_nat (n - 1)); discriminate E.
  - destruct (select_loop_result py_int (f0 :: files) inputs) as [H1 H2].
    split; [exact H1|]. split; [exact H2|]. split.
    + intros again. apply select_loop_asks_again.
    + intros line n f Hq Hn E Hle. cbn [select_loop]. rewrite Hq, Hn, E.
      assert (Hlt : (Z.to_nat (n - 1) < List.length (f0 :: files))%nat)
        by (apply nth_error_Some; congruence).
      assert (B : ((1 <=? n) && (n <=? Z.of_nat (List.length (f0 :: files))))%Z = true).
      { apply andb_true_intro. split; [apply Z.leb_le | apply Z.leb_le]; lia. }
      rewrite B. reflexivity.
Qed.

Lemma select_csv_file_stays_in_the_list_witness :
  forallb (asks_again decimal_int Samples.two_files)
          [Typed "x"; Typed "0"; Typed " 3 "] = true
  /\ select_csv_file decimal_int Samples.two_files
       [Typed "x"; Typed "0"; Typed " 3 "; Typed " 2 "] = Selected "./b.csv".
Proof.
  split; [reflexivity|].
  destruct (select_csv_file_stays_in_the_list decimal_int Samples.two_files
              [Typed " 2 "]) as (_ & _ & Hagain & _).
  change [Typed "x"; Typed "0"; Typed " 3 "; Typed " 2 "]
    with ([Typed "x"; Typed "0"; Typed " 3 "] ++ [Typed " 2 "]).
  rewrite Hagain by reflexivity.
  destruct (select_csv_file_stays_in_the_list decimal_int Samples.two_files [])
    as (_ & _ & _ & Hpick).
  apply (Hpick " 2 " 2%Z (mk_csv "./b.csv" "b.csv")); reflexivity || lia.
Defined.


(** ** Transactions per day *)

Lemma date_compare_eq (a b : Z * Z * Z) : date_compare a b = Eq <-> a = b.
Proof.
  destruct a as [p d], b as [p' d']. unfold date_compare. simpl.
  destruct (period_compare p p') eqn:C.
  - apply period_compare_eq in C. subst p'. rewrite Z.compare_eq_iff.
    split; [intros ->; reflexivity|]. intros H. injection H as H. exact H.
  - split; [discriminate|]. intros H. injection H as H _. subst p'.
    assert (E : period_compare p p = Eq) by now apply period_compare_eq.
    congruence.
  - split; [discriminate|]. intros H. injection H as H _. subst p'.
    assert (E : period_compare p p = Eq) by now apply period_compare_eq.
    congruence.
Qed.

Lemma gt_day_count (x y : (Z * Z * Z) * nat) :
  F.gt (day_count x) (day_count y) = false <-> (snd x <= snd y)%nat.
Proof.
  unfold day_count. simpl.
  assert (H : (inject_Z (Z.of_nat (snd x)) ?= inject_Z (Z.of_nat (snd y)))%Q
              = (Z.of_nat (snd x) ?= Z.of_nat (snd y))%Z).
  { unfold Qcompare. simpl. rewrite !Z.mul_1_r. reflexivity. }
  rewrite H. destruct (Z.compare_spec (Z.of_nat (snd x)) (Z.of_nat (snd y)));
    split; intros; try reflexivity; try discriminate; lia.
Qed.

(** The daily counts add up to the number of transactions and every day
    listed has at least one; the busiest days are at most 5 days of that
    list, in order of decreasing count, and no day left out has more
    transactions than one of them. *)
Theorem daily_counts_and_busiest_days (df : list txn) :
  list_sum (map snd (daily_transactions df)) = List.length df
  /\ (forall d, In d (daily_transactions df) ->
        (1 <= snd d)%nat /\ exists t, In t df /\ txn_date t = fst d)
  /\ List.length (busiest_days df)
     = Nat.min 5 (List.length (daily_transactions df))
  /\ StronglySorted (fun a b => (snd b <= snd a)%nat) (busiest_days df)
  /\ exists rest,
       Permutation (busiest_days df ++ rest) (daily_transactions df)
       /\ forall a b, In a (busiest_days df) -> In b rest -> (snd b <= snd a)%nat.
Proof.
  split; [|split].
  - unfold daily_transactions. rewrite map_map. simpl.
    apply (groupby_sizes date_compare date_compare_eq).
  - intros d Hd. unfold daily_transactions in Hd. apply in_map_iff in Hd.
    destruct Hd as (g & <- & Hg). simpl.
    pose proof (groupby_nonempty date_compare date_compare_eq _ _ g Hg) as Hne.
    split; [destruct (snd g); [congruence | simpl; lia]|].
    assert (Hk : In (fst g) (map fst (groupby date_compare txn_date df)))
      by now apply in_map.
    rewrite groupby_keys in Hk.
    apply (proj1 (group_keys_In date_compare date_compare_eq _ _)) in Hk.
    apply in_map_iff in Hk. destruct Hk as (t & E & Ht). exists t. auto.
  - unfold busiest_days, nlargest.
    set (days := daily_transactions df).
    assert (Hflt : filter (fun x => negb (F.isna (day_count x))) days = days).
    { clear. induction days as [|x l IH]; [reflexivity|].
      cbn [filter day_count F.isna negb]. f_equal. exact IH. }
    rewrite Hflt.
    assert (Hna : Forall (fun y => F.isna (day_count y) = false) days)
      by (apply Forall_forall; intros; reflexivity).
    pose proof (sort_desc_sorted day_count days Hna) as Hs.
    pose proof (sort_desc_perm day_count days) as Hp.
    destruct (sorted_firstn_skipn day_count (Z.to_nat 5) _ Hs) as [H1 H2].
    split; [|split].
    + rewrite length_firstn, (Permutation_length Hp). reflexivity.
    + eapply StronglySorted_weaken; [|exact H1].
      intros a b H. now apply gt_day_count.
    + exists (skipn (Z.to_nat 5) (sort_desc day_count days)). split.
      * rewrite firstn_skipn. exact Hp.
      * intros a b Ha Hb. apply gt_day_count. now apply H2.
Qed.
